(** * The usePomodoro hook: wall-clock countdown and mode cycle

    A shallow embedding of the [usePomodoro] React hook (the variant that
    takes [props.currentTask] and saves finished sessions, and the plain
    variant without persistence), of the play/pause button of the
    [Controls] component, and of the [mode] CHECK constraint of the
    [study_sessions] table.

    Modelling conventions.
    - Milliseconds ([Date.now()], [endTimeRef.current]) and seconds
      ([timeLeft]) are integers of [Z].  [Math.ceil(x / 1000)] is the exact
      integer ceiling; the double-precision quotient has the same ceiling
      for every millisecond count a clock can produce (|x| < 2^53).
    - A handler is a closure: it reads [mode], [timeLeft], [isRunning] and
      [completedSessions] as they were in the render that created it (the
      snapshot [c]), while [endTimeRef.current] is read and written live.
    - [setX] calls made by one callback are queued and applied in order
      when the callback has returned ([commit]).
    - The awaited body of [saveSession] is run in place; it reads nothing
      of the timer, so the point at which it resumes does not matter. *)

From Stdlib Require Import ZArith List String Bool Lia.
From Stdlib Require Import Ascii DecimalString.
Import ListNotations.
Local Open Scope Z_scope.

(** ** Constants *)

Inductive Mode : Type := work | break | longBreak.

Definition Mode_eqb (a b : Mode) : bool :=
  match a, b with
  | work, work | break, break | longBreak, longBreak => true
  | _, _ => false
  end.

(** The string behind each member of the union type. *)
Definition Mode_string (m : Mode) : string :=
  match m with
  | work => "work"
  | break => "break"
  | longBreak => "longBreak"
  end.

Definition TIMES (m : Mode) : Z :=
  match m with
  | work => 25 * 60
  | break => 5 * 60
  | longBreak => 15 * 60
  end.

Definition SESSIONS_UNTIL_LONG_BREAK : Z := 4.

(** ** JavaScript arithmetic on integers *)

(** [Math.ceil(x / 1000)]. *)
Definition ceil_div_1000 (x : Z) : Z := - ((- x) / 1000).

(** [Math.max(0, Math.ceil((endTime - Date.now()) / 1000))], the expression
    shared by [updateTimer] and [handleVisibilityChange]. *)
Definition remaining_of (endTime now : Z) : Z :=
  Z.max 0 (ceil_div_1000 (endTime - now)).

(** Truthiness of a [number | null]: [null] and [0] are falsy. *)
Definition truthy (r : option Z) : bool :=
  match r with
  | Some v => negb (v =? 0)
  | None => false
  end.

(** A [number | null] in arithmetic: [null] counts as [0]. *)
Definition to_number (r : option Z) : Z :=
  match r with
  | Some v => v
  | None => 0
  end.

(** ** Hook state *)

(** The four [useState] cells. *)
Record HookState : Type := mkState {
  mode : Mode;
  timeLeft : Z;
  isRunning : bool;
  completedSessions : Z
}.

(** A call of one of the four state setters. *)
Inductive SetState : Type :=
| SetMode (m : Mode)
| SetTimeLeft (t : Z)
| SetIsRunning (b : bool)
| SetCompletedSessions (n : Z).

Definition apply_set (s : HookState) (u : SetState) : HookState :=
  match u with
  | SetMode m => mkState m (timeLeft s) (isRunning s) (completedSessions s)
  | SetTimeLeft t => mkState (mode s) t (isRunning s) (completedSessions s)
  | SetIsRunning b => mkState (mode s) (timeLeft s) b (completedSessions s)
  | SetCompletedSessions n => mkState (mode s) (timeLeft s) (isRunning s) n
  end.

(** The state of the next render: the queued setter calls in call order. *)
Definition commit (s : HookState) (q : list SetState) : HookState :=
  fold_left apply_set q s.

(** ** Collaborators *)

(** The object literal passed to [supabase.from("study_sessions").insert]. *)
Record Row : Type := mkRow {
  user_id : string;
  row_mode : string;
  duration_minutes : Z;
  task_name : option string;
  day_of_week : Z
}.

Inductive Toast : Type := LongBreakToast | BreakToast | FocusToast.

Inductive Effect : Type :=
| PlayNotification
| ShowToast (t : Toast)
| ConsoleError.

Inductive Outcome (A : Type) : Type :=
| Returns (a : A)
| Throws.
Arguments Returns {A} a.
Arguments Throws {A}.

(** What a callback finds outside the hook when it runs. *)
Record Env : Type := mkEnv {
  dateNow : Z;                          (* Date.now() *)
  visible : bool;                       (* document.visibilityState === "visible" *)
  getUser : Outcome (option string);    (* supabase.auth.getUser(): data.user?.id *)
  insertThrows : bool;                  (* the insert call rejects *)
  getDay : Z;                           (* new Date().getDay() *)
  currentTask : option string           (* props?.currentTask *)
}.

(** [x || null] for an optional string: the empty string is falsy. *)
Definition or_null (x : option string) : option string :=
  match x with
  | Some s => if String.eqb s EmptyString then None else Some s
  | None => None
  end.

(** ** One callback at work *)

(** What a running callback can change: the setter queue, the ref, the rows
    handed to the store and the other effects, each in call order. *)
Record Frame : Type := mkFrame {
  queued : list SetState;
  ref_current : option Z;
  rows : list Row;
  emitted : list Effect
}.

Definition Cmd : Type := Frame -> Frame.

Definition skip : Cmd := fun f => f.
Definition seq (a b : Cmd) : Cmd := fun f => b (a f).
Notation "a ;; b" := (seq a b) (at level 61, right associativity).

Definition enqueue (u : SetState) : Cmd := fun f =>
  mkFrame (queued f ++ [u]) (ref_current f) (rows f) (emitted f).
Definition setMode (m : Mode) : Cmd := enqueue (SetMode m).
Definition setTimeLeft (t : Z) : Cmd := enqueue (SetTimeLeft t).
Definition setIsRunning (b : bool) : Cmd := enqueue (SetIsRunning b).
Definition setCompletedSessions (n : Z) : Cmd := enqueue (SetCompletedSessions n).

Definition set_endTimeRef (v : option Z) : Cmd := fun f =>
  mkFrame (queued f) v (rows f) (emitted f).
Definition insert (r : Row) : Cmd := fun f =>
  mkFrame (queued f) (ref_current f) (rows f ++ [r]) (emitted f).
Definition emit (e : Effect) : Cmd := fun f =>
  mkFrame (queued f) (ref_current f) (rows f) (emitted f ++ [e]).

Definition playNotification : Cmd := emit PlayNotification.
Definition toast (t : Toast) : Cmd := emit (ShowToast t).

(** ** The callbacks of the hook *)

Definition handleModeChange (newMode : Mode) : Cmd :=
  setMode newMode ;;
  setTimeLeft (TIMES newMode) ;;
  setIsRunning false ;;
  set_endTimeRef None.

Definition handleStart (env : Env) (c : HookState) : Cmd :=
  set_endTimeRef (Some (dateNow env + timeLeft c * 1000)) ;;
  setIsRunning true.

Definition handlePause : Cmd :=
  setIsRunning false ;;
  set_endTimeRef None.

Definition handleReset (c : HookState) : Cmd :=
  setTimeLeft (TIMES (mode c)) ;;
  setIsRunning false ;;
  set_endTimeRef None.

(** [try { ... } catch (error) { console.error(...) }]: nothing escapes. *)
Definition saveSession (env : Env) (sessionMode : Mode) : Cmd :=
  match getUser env with
  | Throws => emit ConsoleError
  | Returns None => skip
  | Returns (Some uid) =>
      insert (mkRow uid
                (if Mode_eqb sessionMode work then "pomodoro"%string
                 else Mode_string sessionMode)
                (TIMES sessionMode / 60)
                (or_null (currentTask env))
                (getDay env)) ;;
      (if insertThrows env then emit ConsoleError else skip)
  end.

Definition handleSkip (env : Env) (c : HookState) : Cmd :=
  if Mode_eqb (mode c) work then
    let newSessions := completedSessions c + 1 in
    setCompletedSessions newSessions ;;
    saveSession env work ;;
    (if Z.rem newSessions SESSIONS_UNTIL_LONG_BREAK =? 0 then
       handleModeChange longBreak ;; toast LongBreakToast
     else
       handleModeChange break ;; toast BreakToast)
  else
    handleModeChange work ;; toast FocusToast.

Definition updateTimer (env : Env) (c : HookState) : Cmd := fun f =>
  if negb (truthy (ref_current f)) then f
  else
    let remaining := remaining_of (to_number (ref_current f)) (dateNow env) in
    (setTimeLeft remaining ;;
     (if remaining =? 0 then
        setIsRunning false ;;
        set_endTimeRef None ;;
        playNotification ;;
        handleSkip env c
      else skip)) f.

Definition handleVisibilityChange (env : Env) (c : HookState) : Cmd := fun f =>
  if visible env && isRunning c && truthy (ref_current f) then
    let remaining := remaining_of (to_number (ref_current f)) (dateNow env) in
    (setTimeLeft remaining ;;
     (if remaining =? 0 then
        setIsRunning false ;;
        set_endTimeRef None ;;
        playNotification ;;
        handleSkip env c
      else skip)) f
  else f.

(** ** The hook between callbacks *)

Record Hook : Type := mkHook {
  state : HookState;
  endTimeRef : option Z;
  inserted : list Row;
  effects : list Effect
}.

(** What the page can trigger.  [Tick] stands for both the animation-frame
    loop and the one-second backup interval: each calls [updateTimer], and
    the timer effect installs them only in a render with [isRunning]. *)
Inductive Event : Type :=
| Start
| Pause
| Reset
| ModeChange (m : Mode)
| Skip
| Tick
| VisibilityChange.

Definition callback (env : Env) (c : HookState) (ev : Event) : Cmd :=
  match ev with
  | Start => handleStart env c
  | Pause => handlePause
  | Reset => handleReset c
  | ModeChange m => handleModeChange m
  | Skip => handleSkip env c
  | Tick => if isRunning c then updateTimer env c else skip
  | VisibilityChange => handleVisibilityChange env c
  end.

Definition enter (h : Hook) : Frame :=
  mkFrame [] (endTimeRef h) (inserted h) (effects h).

Definition leave (h : Hook) (f : Frame) : Hook :=
  mkHook (commit (state h) (queued f)) (ref_current f) (rows f) (emitted f).

(** Runs a callback to its end, then renders again with the queued setter
    calls applied. *)
Definition invoke (cmd : Cmd) (h : Hook) : Hook := leave h (cmd (enter h)).

(** One event, handled by the callback of the latest render. *)
Definition fire (env : Env) (ev : Event) (h : Hook) : Hook :=
  invoke (callback env (state h) ev) h.

Fixpoint run (evs : list (Env * Event)) (h : Hook) : Hook :=
  match evs with
  | [] => h
  | (env, ev) :: rest => run rest (fire env ev h)
  end.

(** The hook as mounted: [useState("work")], [useState(TIMES.work)],
    [useState(false)], [useState(0)], [useRef(null)]. *)
Definition mounted : Hook :=
  mkHook (mkState work (TIMES work) false 0) None [] [].

(** ** The play/pause button of Controls: [onClick={isRunning ? onPause : onStart}] *)
Definition playPauseClick (h : Hook) : Event :=
  if isRunning (state h) then Pause else Start.

(** ** The table: [mode TEXT NOT NULL CHECK (mode IN ('pomodoro', 'shortBreak', 'longBreak'))] *)
Definition study_sessions_mode_check (r : Row) : bool :=
  String.eqb (row_mode r) "pomodoro"
  || String.eqb (row_mode r) "shortBreak"
  || String.eqb (row_mode r) "longBreak".

(** ** The plain variant of the hook

    It differs from the one above in [handleSkip] alone, which does not call
    [saveSession]; the callbacks that call [handleSkip] are repeated here. *)
Module Plain.

Definition handleSkip (c : HookState) : Cmd :=
  if Mode_eqb (mode c) work then
    let newSessions := completedSessions c + 1 in
    setCompletedSessions newSessions ;;
    (if Z.rem newSessions SESSIONS_UNTIL_LONG_BREAK =? 0 then
       handleModeChange longBreak ;; toast LongBreakToast
     else
       handleModeChange break ;; toast BreakToast)
  else
    handleModeChange work ;; toast FocusToast.

Definition updateTimer (env : Env) (c : HookState) : Cmd := fun f =>
  if negb (truthy (ref_current f)) then f
  else
    let remaining := remaining_of (to_number (ref_current f)) (dateNow env) in
    (setTimeLeft remaining ;;
     (if remaining =? 0 then
        setIsRunning false ;;
        set_endTimeRef None ;;
        playNotification ;;
        handleSkip c
      else skip)) f.

Definition handleVisibilityChange (env : Env) (c : HookState) : Cmd := fun f =>
  if visible env && isRunning c && truthy (ref_current f) then
    let remaining := remaining_of (to_number (ref_current f)) (dateNow env) in
    (setTimeLeft remaining ;;
     (if remaining =? 0 then
        setIsRunning false ;;
        set_endTimeRef None ;;
        playNotification ;;
        handleSkip c
      else skip)) f
  else f.

Definition callback (env : Env) (c : HookState) (ev : Event) : Cmd :=
  match ev with
  | Start => handleStart env c
  | Pause => handlePause
  | Reset => handleReset c
  | ModeChange m => handleModeChange m
  | Skip => handleSkip c
  | Tick => if isRunning c then updateTimer env c else skip
  | VisibilityChange => handleVisibilityChange env c
  end.

Definition fire (env : Env) (ev : Event) (h : Hook) : Hook :=
  invoke (callback env (state h) ev) h.

End Plain.

(** * Runs and observations *)

(** ** Environments *)

(** The same surroundings at clock reading [t]. *)
Definition at_time (env : Env) (t : Z) : Env :=
  mkEnv t (visible env) (getUser env) (insertThrows env) (getDay env)
    (currentTask env).

(** An environment for examples: the page is visible and nobody is signed
    in. *)
Definition clock (t : Z) : Env := mkEnv t true (Returns None) false 0 None.

(** An environment for examples: a visible page, a signed-in user and a
    current task, on a Monday. *)
Definition signed_in (t : Z) : Env :=
  mkEnv t true (Returns (Some "user-1"%string)) false 1 (Some "essay"%string).

(** The same surroundings with another answer of the identity query. *)
Definition with_user (env : Env) (u : Outcome (option string)) : Env :=
  mkEnv (dateNow env) (visible env) u (insertThrows env) (getDay env)
    (currentTask env).

(** ** Kinds of events *)

(** The events that recompute [timeLeft] from the ref. *)
Definition recomputation (ev : Event) : bool :=
  match ev with
  | Tick | VisibilityChange => true
  | _ => false
  end.

(** Which events end the current interval: a skip, or a recomputation
    that passes its guards and computes zero. *)
Definition expired (env : Env) (h : Hook) : bool :=
  truthy (endTimeRef h)
  && (remaining_of (to_number (endTimeRef h)) (dateNow env) =? 0).

Definition completes (env : Env) (ev : Event) (h : Hook) : bool :=
  match ev with
  | Skip => true
  | Tick => isRunning (state h) && expired env h
  | VisibilityChange => visible env && isRunning (state h) && expired env h
  | _ => false
  end.

(** ** What an event writes, stores and emits *)

(** The setter calls an event makes, in call order. *)
Definition writes (env : Env) (ev : Event) (h : Hook) : list SetState :=
  queued (callback env (state h) ev (enter h)).

Definition blank : Frame := mkFrame [] None [] [].

(** What [handleSkip] hands to the store and what it emits, read off a
    frame that starts empty. *)
Definition skip_rows (env : Env) (s : HookState) : list Row :=
  rows (handleSkip env s blank).

Definition skip_effects (env : Env) (s : HookState) : list Effect :=
  emitted (handleSkip env s blank).

(** The state [handleSkip] leaves behind once its setters are applied. *)
Definition after_skip (s : HookState) : HookState :=
  if Mode_eqb (mode s) work then
    let n := completedSessions s + 1 in
    let m := if Z.rem n SESSIONS_UNTIL_LONG_BREAK =? 0 then longBreak else break in
    mkState m (TIMES m) false n
  else
    mkState work (TIMES work) false (completedSessions s).

(** The row of a focus session of user [uid]. *)
Definition focus_row (env : Env) (uid : string) : Row :=
  mkRow uid "pomodoro" (TIMES work / 60) (or_null (currentTask env)) (getDay env).

Definition notifications (l : list Effect) : nat :=
  List.length (filter (fun e => match e with PlayNotification => true | _ => false end) l).

Definition toasts (l : list Effect) : nat :=
  List.length (filter (fun e => match e with ShowToast _ => true | _ => false end) l).

Definition errors (l : list Effect) : nat :=
  List.length (filter (fun e => match e with ConsoleError => true | _ => false end) l).

(** ** Focus sessions driven to expiry *)

(** Starts the interval and lets it run out: one tick at the instant the
    countdown ends.  Returns the clock as well. *)
Definition run_out (env : Env) (h : Hook) : Env * Hook :=
  let env' := at_time env (dateNow env + timeLeft (state h) * 1000) in
  (env', fire env' Tick (fire env Start h)).

(** The hook after [k] focus sessions were driven to expiry from mount,
    each break in between driven to expiry too. *)
Fixpoint focus_sessions (env : Env) (k : nat) : Env * Hook :=
  match k with
  | O => (env, mounted)
  | S k' =>
      let '(env1, h1) := focus_sessions env k' in
      let '(env2, h2) :=
        if Mode_eqb (mode (state h1)) work then (env1, h1) else run_out env1 h1 in
      run_out env2 h2
  end.

(** The mode the [k]-th focus completion leads to. *)
Definition cycle_mode (k : nat) : Mode :=
  match k with
  | O => work
  | S _ => if Z.of_nat k mod 4 =? 0 then longBreak else break
  end.

(** Ten seconds left, paused: the countdown was started at mount time 0,
    observed at 1490 s and paused there. *)
Definition ten_left : Hook :=
  run [(clock 0, Start); (clock 1490000, Tick); (clock 1490000, Pause)] mounted.

(** ** Stretches of running between pauses *)

(** One stretch of running: a start at the clock reading of [begun], ticks
    at the offsets [ticked], in milliseconds after the start, and the pause
    [paused] milliseconds after the start. *)
Record Stretch : Type := mkStretch {
  begun : Env;
  ticked : list Z;
  paused : Z
}.

Fixpoint tick_at (env : Env) (offsets : list Z) (h : Hook) : Hook :=
  match offsets with
  | [] => h
  | d :: rest => tick_at env rest (fire (at_time env (dateNow env + d)) Tick h)
  end.

Definition run_stretch (s : Stretch) (h : Hook) : Hook :=
  fire (at_time (begun s) (dateNow (begun s) + paused s)) Pause
    (tick_at (begun s) (ticked s) (fire (begun s) Start h)).

Fixpoint run_stretches (l : list Stretch) (h : Hook) : Hook :=
  match l with
  | [] => h
  | s :: rest => run_stretches rest (run_stretch s h)
  end.

(** The same stretches through the plain variant of the hook. *)
Fixpoint plain_tick_at (env : Env) (offsets : list Z) (h : Hook) : Hook :=
  match offsets with
  | [] => h
  | d :: rest =>
      plain_tick_at env rest (Plain.fire (at_time env (dateNow env + d)) Tick h)
  end.

Definition plain_run_stretch (s : Stretch) (h : Hook) : Hook :=
  Plain.fire (at_time (begun s) (dateNow (begun s) + paused s)) Pause
    (plain_tick_at (begun s) (ticked s) (Plain.fire (begun s) Start h)).

Fixpoint plain_run_stretches (l : list Stretch) (h : Hook) : Hook :=
  match l with
  | [] => h
  | s :: rest => plain_run_stretches rest (plain_run_stretch s h)
  end.

(** The offset of the last tick of a stretch, 0 when there was none. *)
Definition last_tick (s : Stretch) : Z := last (ticked s) 0.

(** Wall-clock milliseconds spent running; the whole seconds seen by the
    last tick of each stretch; the milliseconds run after it. *)
Fixpoint running_ms (l : list Stretch) : Z :=
  match l with
  | [] => 0
  | s :: rest => paused s + running_ms rest
  end.

Fixpoint seen_seconds (l : list Stretch) : Z :=
  match l with
  | [] => 0
  | s :: rest => last_tick s / 1000 + seen_seconds rest
  end.

Fixpoint unseen_ms (l : list Stretch) : Z :=
  match l with
  | [] => 0
  | s :: rest => (paused s - last_tick s) + unseen_ms rest
  end.

(** Offsets that do not go back, from [from] up to [upto]. *)
Fixpoint in_order (from : Z) (offsets : list Z) (upto : Z) : Prop :=
  match offsets with
  | [] => from <= upto
  | d :: rest => from <= d /\ in_order d rest upto
  end.

(** A stretch that can occur: the clock is not negative and does not go
    back between the start, the ticks and the pause. *)
Definition stretch_ok (s : Stretch) : Prop :=
  0 <= dateNow (begun s) /\ in_order 0 (ticked s) (paused s).

(** ** Runs of the plain variant *)

Fixpoint plain_run (evs : list (Env * Event)) (h : Hook) : Hook :=
  match evs with
  | [] => h
  | (env, ev) :: rest => plain_run rest (Plain.fire env ev h)
  end.

(** What the plain [handleSkip] emits, read off a frame that starts
    empty. *)
Definition plain_skip_effects (s : HookState) : list Effect :=
  emitted (Plain.handleSkip s blank).

(** * Runs of the hook *)

(** The events that stop the timer. *)
Definition stops (ev : Event) : bool :=
  match ev with
  | Pause | Reset | ModeChange _ | Skip => true
  | _ => false
  end.

(** A run whose clock readings start at [t] or later and never go back. *)
Fixpoint clock_from (t : Z) (evs : list (Env * Event)) : Prop :=
  match evs with
  | [] => True
  | (env, _) :: rest => t <= dateNow env /\ clock_from (dateNow env) rest
  end.

(** A run during which the identity query always finds a user. *)
Definition signed_in_throughout (evs : list (Env * Event)) : Prop :=
  Forall (fun p => exists uid, getUser (fst p) = Returns (Some uid)) evs.

(** Rows and count gained between two hooks. *)
Definition rows_gained (h h' : Hook) : Z :=
  Z.of_nat (List.length (inserted h')) - Z.of_nat (List.length (inserted h)).

Definition count_gained (h h' : Hook) : Z :=
  completedSessions (state h') - completedSessions (state h).

(** The timer runs exactly when a target end time is set. *)
Definition running_iff_deadline (h : Hook) : Prop :=
  isRunning (state h) = true <-> endTimeRef h <> None.

(** At clock reading [t] the remaining seconds are positive and within the
    duration of the mode, and a target end time, when set, lies no further
    ahead than the remaining seconds. *)
Definition countdown_ok (t : Z) (h : Hook) : Prop :=
  0 <= t
  /\ 0 < timeLeft (state h) <= TIMES (mode (state h))
  /\ forall e, endTimeRef h = Some e -> 0 < e <= t + timeLeft (state h) * 1000.

(** * The page around the hook *)

(** ** Text of the countdown: the Timer component and the document title *)

(** [String(n)] for an integer [n]. *)
Definition String_of_number (n : Z) : string :=
  NilZero.string_of_int (Z.to_int n).

(** The first [n] characters of [padString] repeated over and over;
    [rest] is what is left of the copy in progress. *)
Fixpoint filler (n : nat) (padString rest : string) : string :=
  match n with
  | O => EmptyString
  | S n' =>
      match rest with
      | String c rest' => String c (filler n' padString rest')
      | EmptyString =>
          match padString with
          | String c rest' => String c (filler n' padString rest')
          | EmptyString => EmptyString
          end
      end
  end.

(** [s.padStart(targetLength, padString)]. *)
Definition padStart (targetLength : nat) (padString s : string) : string :=
  if (targetLength <=? String.length s)%nat then s
  else
    match padString with
    | EmptyString => s
    | _ => String.append
             (filler (targetLength - String.length s) padString padString) s
    end.

(** The text MM:SS, as the Timer component and the title effect build it
    from [Math.floor(timeLeft / 60)] and [timeLeft % 60]. *)
Definition timeString (timeLeft : Z) : string :=
  let minutes := timeLeft / 60 in
  let seconds := Z.rem timeLeft 60 in
  String.append (padStart 2 "0" (String_of_number minutes))
    (String.append ":" (padStart 2 "0" (String_of_number seconds))).

Definition modeLabel (m : Mode) : string :=
  if Mode_eqb m work then "Foco"
  else if Mode_eqb m break then "Pausa"
  else "Pausa Longa".

(** [document.title] as the title effect sets it after a render. *)
Definition document_title (s : HookState) : string :=
  String.append (timeString (timeLeft s))
    (String.append " - " (String.append (modeLabel (mode s)) " | Pomodoro")).

(** Reading a text MM:SS back into seconds. *)
Definition digit_value (c : ascii) : option Z :=
  let n := Z.of_nat (nat_of_ascii c) in
  if (48 <=? n) && (n <=? 57) then Some (n - 48) else None.

Definition read_clock (s : string) : option Z :=
  match s with
  | String a (String b (String sep (String c (String d EmptyString)))) =>
      match digit_value a, digit_value b, digit_value c, digit_value d with
      | Some a', Some b', Some c', Some d' =>
          if Ascii.eqb sep ":" && (10 * c' + d' <? 60)
          then Some ((10 * a' + b') * 60 + (10 * c' + d'))
          else None
      | _, _, _, _ => None
      end
  | _ => None
  end.

(** The text for [t] has five characters and reads back as [t]. *)
Definition clock_text_ok (t : Z) : bool :=
  (String.length (timeString t) =? 5)%nat
  && match read_clock (timeString t) with
     | Some v => v =? t
     | None => false
     end.

(** ** The SessionCounter component *)

(** [Array.from({ length: n }, (_, i) => i)]. *)
Definition Array_from_length (n : Z) : list Z :=
  map Z.of_nat (List.seq 0 (Z.to_nat n)).

(** One flag per indicator, in order: [true] where the component renders
    the filled check mark, [index < completedSessions % sessionsUntilLongBreak]. *)
Definition indicators (completedSessions sessionsUntilLongBreak : Z) : list bool :=
  map (fun index => index <? Z.rem completedSessions sessionsUntilLongBreak)
    (Array_from_length sessionsUntilLongBreak).

(** ** The task list of the Index page *)

Record Task : Type := mkTask {
  task_id : string;
  text : string;
  task_completed : bool
}.

(** The two [useState] cells of the page beside the hook. *)
Record Page : Type := mkPage {
  tasks : list Task;
  currentTaskName : string
}.

(** As mounted: [useState("")] and [useState([])]. *)
Definition page_mounted : Page := mkPage [] EmptyString.

(** [uuid] is what [crypto.randomUUID()] returns. *)
Definition handleAddTask (uuid : string) (new_text : string) (p : Page) : Page :=
  mkPage (tasks p ++ [mkTask uuid new_text false]) new_text.

Definition handleToggleTask (i : string) (p : Page) : Page :=
  mkPage
    (map (fun task =>
            if String.eqb (task_id task) i
            then mkTask (task_id task) (text task) (negb (task_completed task))
            else task)
       (tasks p))
    (currentTaskName p).

Definition handleDeleteTask (i : string) (p : Page) : Page :=
  mkPage (filter (fun task => negb (String.eqb (task_id task) i)) (tasks p))
    (currentTaskName p).

(** What the page can do to a task that is listed. *)
Inductive TaskClick : Type :=
| ToggleTask (i : string)
| DeleteTask (i : string).

Definition click (c : TaskClick) (p : Page) : Page :=
  match c with
  | ToggleTask i => handleToggleTask i p
  | DeleteTask i => handleDeleteTask i p
  end.

Definition clicks (cs : list TaskClick) (p : Page) : Page :=
  fold_left (fun p c => click c p) cs p.

(** The hook is called with [{ currentTask: currentTaskName }]. *)
Definition page_env (env : Env) (p : Page) : Env :=
  mkEnv (dateNow env) (visible env) (getUser env) (insertThrows env) (getDay env)
    (Some (currentTaskName p)).

(** ** The table: [day_of_week INTEGER NOT NULL CHECK (day_of_week >= 0 AND day_of_week <= 6)] *)
Definition study_sessions_day_check (r : Row) : bool :=
  (0 <=? day_of_week r) && (day_of_week r <=? 6).

(** ** The weekly report *)

Record WeeklyGoal : Type := mkGoal {
  goal_id : option string;
  goal_day_of_week : Z;
  target_pomodoros : Z;
  goal_subject : option string
}.

Record DayData : Type := mkDay {
  dayOfWeek : Z;
  completed : Z;
  target : Z;
  subject : option string
}.

(** The loop of [loadData] over the two query results, each possibly
    [null]: seven entries, one per day. *)
Definition weekDataOf (sessions : option (list Row))
    (goalsData : option (list WeeklyGoal)) : list DayData :=
  let processedGoals := match goalsData with Some g => g | None => [] end in
  map (fun i =>
         let completed :=
           match sessions with
           | Some l => Z.of_nat (List.length (filter (fun s => day_of_week s =? i) l))
           | None => 0
           end in
         let goal := find (fun g => goal_day_of_week g =? i) processedGoals in
         mkDay i completed
           (match goal with
            | Some g => if target_pomodoros g =? 0 then 4 else target_pomodoros g
            | None => 4
            end)
           (match goal with
            | Some g => or_null (goal_subject g)
            | None => None
            end))
    (map Z.of_nat (List.seq 0 7)).

Record Stats : Type := mkStats {
  totalCompleted : Z;
  totalTarget : Z;
  percentage : Z;
  hours : Z;
  minutes : Z
}.

(** [round_percent a b] stands for [Math.round((a / b) * 100)], which is
    computed in double precision and is left open here. *)
Definition calculateStats (round_percent : Z -> Z -> Z) (weekData : list DayData)
    : Stats :=
  let totalCompleted := fold_left (fun sum d => sum + completed d) weekData 0 in
  let totalTarget := fold_left (fun sum d => sum + target d) weekData 0 in
  let percentage :=
    if 0 <? totalTarget then round_percent totalCompleted totalTarget else 0 in
  let totalMinutes := totalCompleted * 25 in
  let hours := totalMinutes / 60 in
  let minutes := Z.rem totalMinutes 60 in
  mkStats totalCompleted totalTarget percentage hours minutes.

(** The messages of [generateSuggestions], each with the numbers it
    prints: pomodoros left today (with the plural "s"), the week below
    50%, the week at 80% or above, the days below half their goal (with
    the plural "s"), three or more days on goal, and the fallback that
    asks to configure goals. *)
Inductive Suggestion : Type :=
| RemainingToday (remaining : Z) (plural : bool)
| BelowHalf
| Excellent
| LowDays (days : Z) (plural : bool)
| Consistency
| ConfigureGoals.

(** [today] is [new Date().getDay()].  [d.completed < d.target * 0.5] is
    written [2 * completed < target]: halving an integer is exact in
    double precision. *)
Definition generateSuggestions (round_percent : Z -> Z -> Z) (today : Z)
    (weekData : list DayData) : list Suggestion :=
  let stats := calculateStats round_percent weekData in
  let todayData := find (fun d => dayOfWeek d =? today) weekData in
  let s1 :=
    match todayData with
    | Some d =>
        if completed d <? target d then
          let remaining := target d - completed d in
          [RemainingToday remaining (1 <? remaining)]
        else []
    | None => []
    end in
  let s2 :=
    if percentage stats <? 50 then [BelowHalf]
    else if 80 <=? percentage stats then [Excellent]
    else [] in
  let lowDays :=
    filter (fun d => (0 <? target d) && (2 * completed d <? target d)
                     && (dayOfWeek d <? today)) weekData in
  let s3 :=
    if (0 <? List.length lowDays)%nat then
      [LowDays (Z.of_nat (List.length lowDays)) (1 <? List.length lowDays)%nat]
    else [] in
  let consecutiveCompleted :=
    List.length (filter (fun d => (dayOfWeek d <=? today)
                                  && (target d <=? completed d)) weekData) in
  let s4 := if (3 <=? consecutiveCompleted)%nat then [Consistency] else [] in
  let suggestions := s1 ++ s2 ++ s3 ++ s4 in
  match suggestions with
  | [] => [ConfigureGoals]
  | _ => suggestions
  end.

(** Sessions of day [i] among the rows fetched. *)
Definition day_count (i : Z) (l : list Row) : Z :=
  Z.of_nat (List.length (filter (fun s => day_of_week s =? i) l)).

(** Minutes stored with the rows. *)
Definition stored_minutes (l : list Row) : Z :=
  fold_right (fun r acc => duration_minutes r + acc) 0 l.

(** * Properties *)

(** ** Unfolding the callbacks *)

Ltac open_callbacks :=
  unfold fire, Plain.fire, invoke, callback, Plain.callback,
    handleSkip, Plain.handleSkip, updateTimer, Plain.updateTimer,
    handleVisibilityChange, Plain.handleVisibilityChange,
    handleStart, handlePause, handleReset, handleModeChange, saveSession,
    playNotification, toast, setMode, setTimeLeft, setIsRunning,
    setCompletedSessions, leave, enter, seq, skip in *.

Ltac break_hook h :=
  let m := fresh "m" in
  let t := fresh "t" in
  let r := fresh "r" in
  let n := fresh "n" in
  let e := fresh "e" in
  let ins := fresh "ins" in
  let eff := fresh "eff" in
  destruct h as [[m t r n] e ins eff]; cbn [state endTimeRef inserted effects
    mode timeLeft isRunning completedSessions] in *.

(** ** Arithmetic of the countdown *)

Lemma ceil_div_1000_exact (r d : Z) :
  ceil_div_1000 (r * 1000 - d) = r - d / 1000.
Proof.
  unfold ceil_div_1000.
  replace (- (r * 1000 - d)) with (d + (- r) * 1000) by ring.
  rewrite Z.div_add by lia. ring.
Qed.

Lemma remaining_of_start (now r d : Z) :
  0 <= d < r * 1000 ->
  remaining_of (now + r * 1000) (now + d) = r - d / 1000 /\ 0 < r - d / 1000.
Proof.
  intros Hd. unfold remaining_of.
  replace (now + r * 1000 - (now + d)) with (r * 1000 - d) by ring.
  rewrite ceil_div_1000_exact.
  assert (d / 1000 < r) by (apply Z.div_lt_upper_bound; lia).
  split; lia.
Qed.

Lemma remaining_of_past (endTime now : Z) :
  endTime <= now -> remaining_of endTime now = 0.
Proof.
  intros Hle. unfold remaining_of, ceil_div_1000.
  assert (0 <= (- (endTime - now)) / 1000) by (apply Z.div_pos; lia).
  lia.
Qed.

Lemma remaining_of_zero (endTime now : Z) :
  remaining_of endTime now = 0 <-> endTime <= now.
Proof.
  split; [|apply remaining_of_past].
  unfold remaining_of, ceil_div_1000. intros Hz.
  destruct (Z_le_gt_dec endTime now) as [|Hgt]; [assumption|exfalso].
  assert ((- (endTime - now)) / 1000 < 0) by (apply Z.div_lt_upper_bound; lia).
  lia.
Qed.

Lemma rem_4_mod_4 (n : Z) : (Z.rem n 4 =? 0) = (n mod 4 =? 0).
Proof.
  destruct (Z.eqb_spec (Z.rem n 4) 0) as [Hr|Hr];
    destruct (Z.eqb_spec (n mod 4) 0) as [Hm|Hm]; try reflexivity; exfalso.
  - apply Hm. apply Z.mod_divide; [lia|]. apply Z.rem_divide in Hr; [assumption|lia].
  - apply Hr. apply Z.rem_divide; [lia|]. apply Z.mod_divide in Hm; [assumption|lia].
Qed.

Lemma TIMES_pos (m : Mode) : 0 < TIMES m.
Proof. destruct m; reflexivity. Qed.

(** ** Closed forms of the events *)

Lemma invoke_skip (h : Hook) : invoke skip h = h.
Proof. break_hook h. reflexivity. Qed.

Lemma fire_Start (env : Env) (h : Hook) :
  fire env Start h =
  mkHook (mkState (mode (state h)) (timeLeft (state h)) true
            (completedSessions (state h)))
         (Some (dateNow env + timeLeft (state h) * 1000))
         (inserted h) (effects h).
Proof. reflexivity. Qed.

Lemma fire_Pause (env : Env) (h : Hook) :
  fire env Pause h =
  mkHook (mkState (mode (state h)) (timeLeft (state h)) false
            (completedSessions (state h)))
         None (inserted h) (effects h).
Proof. reflexivity. Qed.

Lemma fire_ModeChange (env : Env) (m : Mode) (h : Hook) :
  fire env (ModeChange m) h =
  mkHook (mkState m (TIMES m) false (completedSessions (state h)))
         None (inserted h) (effects h).
Proof. reflexivity. Qed.

Lemma fire_Reset (env : Env) (h : Hook) :
  fire env Reset h =
  mkHook (mkState (mode (state h)) (TIMES (mode (state h))) false
            (completedSessions (state h)))
         None (inserted h) (effects h).
Proof. reflexivity. Qed.

Lemma fire_Skip (env : Env) (h : Hook) :
  fire env Skip h =
  mkHook (after_skip (state h)) None
         (inserted h ++ skip_rows env (state h))
         (effects h ++ skip_effects env (state h)).
Proof.
  break_hook h. unfold after_skip, skip_rows, skip_effects, blank.
  open_callbacks. cbn.
  destruct m; cbn;
    try (destruct (Z.rem (n + 1) SESSIONS_UNTIL_LONG_BREAK =? 0));
    destruct (getUser env) as [[uid|]|]; try destruct (insertThrows env);
    cbn; rewrite <- ?app_assoc, ?app_nil_r; auto.
Qed.

Lemma Plain_fire_Skip (env : Env) (h : Hook) :
  state (Plain.fire env Skip h) = after_skip (state h)
  /\ endTimeRef (Plain.fire env Skip h) = None
  /\ inserted (Plain.fire env Skip h) = inserted h.
Proof.
  break_hook h. unfold after_skip. open_callbacks. cbn.
  destruct m; cbn;
    try (destruct (Z.rem (n + 1) SESSIONS_UNTIL_LONG_BREAK =? 0)); cbn; auto.
Qed.

(** A recomputation that finds the ref empty (or zero) changes nothing,
    whatever render its closure comes from. *)
Lemma updateTimer_idle (env : Env) (c : HookState) (h : Hook) :
  truthy (endTimeRef h) = false -> invoke (updateTimer env c) h = h.
Proof.
  intros Hr. break_hook h. unfold invoke, updateTimer. cbn.
  rewrite Hr. reflexivity.
Qed.

Lemma handleVisibilityChange_idle (env : Env) (c : HookState) (h : Hook) :
  truthy (endTimeRef h) = false -> invoke (handleVisibilityChange env c) h = h.
Proof.
  intros Hr. break_hook h. unfold invoke, handleVisibilityChange. cbn.
  rewrite Hr, andb_false_r. reflexivity.
Qed.

Lemma recomputation_idle (env : Env) (ev : Event) (h : Hook) :
  recomputation ev = true -> truthy (endTimeRef h) = false -> fire env ev h = h.
Proof.
  intros Hev Hr. destruct ev; try discriminate; unfold fire, callback.
  - destruct (isRunning (state h)).
    + now apply updateTimer_idle.
    + apply invoke_skip.
  - now apply handleVisibilityChange_idle.
Qed.

(** A recomputation that passes its guards and computes a positive value
    only replaces [timeLeft]. *)
Lemma recomputation_live (env : Env) (ev : Event) (h : Hook) :
  recomputation ev = true ->
  isRunning (state h) = true ->
  (ev = VisibilityChange -> visible env = true) ->
  truthy (endTimeRef h) = true ->
  remaining_of (to_number (endTimeRef h)) (dateNow env) <> 0 ->
  fire env ev h =
  mkHook (mkState (mode (state h))
            (remaining_of (to_number (endTimeRef h)) (dateNow env))
            true (completedSessions (state h)))
         (endTimeRef h) (inserted h) (effects h).
Proof.
  intros Hev Hrun Hvis Hr Hpos. break_hook h. subst r.
  apply Z.eqb_neq in Hpos.
  destruct ev; try discriminate; open_callbacks; cbn.
  - rewrite Hr. cbn. rewrite Hpos. reflexivity.
  - rewrite Hvis, Hr by reflexivity. cbn. rewrite Hpos. reflexivity.
Qed.

(** A recomputation that computes zero ends the interval as a skip does,
    after the notification sound. *)
Lemma recomputation_expires (env : Env) (ev : Event) (h : Hook) :
  recomputation ev = true ->
  completes env ev h = true ->
  fire env ev h =
  mkHook (after_skip (state h)) None
         (inserted h ++ skip_rows env (state h))
         (effects h ++ PlayNotification :: skip_effects env (state h)).
Proof.
  intros Hev Hc. break_hook h.
  unfold completes, expired in Hc. cbn in Hc.
  unfold after_skip, skip_rows, skip_effects, blank.
  destruct ev; try discriminate.
  - apply andb_prop in Hc as [Hrun Hc]. apply andb_prop in Hc as [Hr Hz].
    subst r. open_callbacks. cbn. rewrite Hr. cbn. rewrite Hz.
    unfold handleSkip. open_callbacks. cbn.
    destruct m; cbn;
      try (destruct (Z.rem (n + 1) SESSIONS_UNTIL_LONG_BREAK =? 0));
      destruct (getUser env) as [[uid|]|]; try destruct (insertThrows env);
      cbn; rewrite <- ?app_assoc, ?app_nil_r; auto.
  - apply andb_prop in Hc as [Hc Hx]. apply andb_prop in Hc as [Hvis Hrun].
    apply andb_prop in Hx as [Hr Hz].
    subst r. open_callbacks. cbn. rewrite Hvis, Hr. cbn. rewrite Hz.
    unfold handleSkip. open_callbacks. cbn.
    destruct m; cbn;
      try (destruct (Z.rem (n + 1) SESSIONS_UNTIL_LONG_BREAK =? 0));
      destruct (getUser env) as [[uid|]|]; try destruct (insertThrows env);
      cbn; rewrite <- ?app_assoc, ?app_nil_r; auto.
Qed.

(** The plain variant moves the timer exactly as the saving variant does. *)
Lemma Plain_fire_timer (env : Env) (ev : Event) (h : Hook) :
  state (Plain.fire env ev h) = state (fire env ev h)
  /\ endTimeRef (Plain.fire env ev h) = endTimeRef (fire env ev h).
Proof.
  break_hook h.
  destruct ev; try (split; reflexivity); open_callbacks; cbn.
  - destruct m; cbn;
      try (destruct (Z.rem (n + 1) SESSIONS_UNTIL_LONG_BREAK =? 0));
      destruct (getUser env) as [[uid|]|]; try destruct (insertThrows env);
      cbn; auto.
  - destruct r; cbn; [|auto].
    destruct (truthy e); cbn; [|auto].
    destruct (remaining_of (to_number e) (dateNow env) =? 0); cbn; [|auto].
    unfold handleSkip, Plain.handleSkip. open_callbacks. cbn.
    destruct m; cbn;
      try (destruct (Z.rem (n + 1) SESSIONS_UNTIL_LONG_BREAK =? 0));
      destruct (getUser env) as [[uid|]|]; try destruct (insertThrows env);
      cbn; auto.
  - destruct (visible env && r && truthy e); cbn; [|auto].
    destruct (remaining_of (to_number e) (dateNow env) =? 0); cbn; [|auto].
    unfold handleSkip, Plain.handleSkip. open_callbacks. cbn.
    destruct m; cbn;
      try (destruct (Z.rem (n + 1) SESSIONS_UNTIL_LONG_BREAK =? 0));
      destruct (getUser env) as [[uid|]|]; try destruct (insertThrows env);
      cbn; auto.
Qed.

(** The plain variant never reaches the store. *)
Lemma Plain_fire_inserted (env : Env) (ev : Event) (h : Hook) :
  inserted (Plain.fire env ev h) = inserted h.
Proof.
  break_hook h.
  destruct ev; try reflexivity; open_callbacks; cbn.
  - destruct m; cbn;
      try (destruct (Z.rem (n + 1) SESSIONS_UNTIL_LONG_BREAK =? 0)); reflexivity.
  - destruct r; cbn; [|auto].
    destruct (truthy e); cbn; [|auto].
    destruct (remaining_of (to_number e) (dateNow env) =? 0); cbn; [|auto].
    unfold Plain.handleSkip. open_callbacks. cbn.
    destruct m; cbn;
      try (destruct (Z.rem (n + 1) SESSIONS_UNTIL_LONG_BREAK =? 0)); reflexivity.
  - destruct (visible env && r && truthy e); cbn; [|auto].
    destruct (remaining_of (to_number e) (dateNow env) =? 0); cbn; [|auto].
    unfold Plain.handleSkip. open_callbacks. cbn.
    destruct m; cbn;
      try (destruct (Z.rem (n + 1) SESSIONS_UNTIL_LONG_BREAK =? 0)); reflexivity.
Qed.

(** Any event that ends the interval leaves the state of [after_skip]. *)
Lemma completes_fire (env : Env) (ev : Event) (h : Hook) :
  completes env ev h = true ->
  state (fire env ev h) = after_skip (state h)
  /\ endTimeRef (fire env ev h) = None
  /\ inserted (fire env ev h) = inserted h ++ skip_rows env (state h).
Proof.
  intros Hc.
  assert (Hcases : ev = Skip \/ recomputation ev = true)
    by (destruct ev; try discriminate; auto).
  destruct Hcases as [->|Hev].
  - rewrite fire_Skip. auto.
  - rewrite (recomputation_expires env ev h Hev Hc). auto.
Qed.

(** ** The cycle of focus sessions *)

Lemma run_out_spec (env : Env) (h : Hook) :
  0 <= dateNow env ->
  0 < timeLeft (state h) ->
  0 <= dateNow (fst (run_out env h))
  /\ state (snd (run_out env h)) = after_skip (state h)
  /\ endTimeRef (snd (run_out env h)) = None.
Proof.
  intros Hnow Hpos. unfold run_out. cbn [fst snd].
  set (env' := at_time env (dateNow env + timeLeft (state h) * 1000)).
  assert (Hc : completes env' Tick (fire env Start h) = true).
  { rewrite fire_Start. unfold completes, expired. cbn.
    rewrite remaining_of_past by lia.
    replace (dateNow env + timeLeft (state h) * 1000 =? 0) with false
      by (symmetry; apply Z.eqb_neq; lia).
    reflexivity. }
  destruct (completes_fire _ _ _ Hc) as (Hs & Hr & _).
  rewrite Hs, Hr, fire_Start. cbn. split; [lia|]. split; reflexivity.
Qed.

Lemma focus_sessions_spec (env : Env) (k : nat) :
  0 <= dateNow env ->
  0 <= dateNow (fst (focus_sessions env k))
  /\ state (snd (focus_sessions env k)) =
     mkState (cycle_mode k) (TIMES (cycle_mode k)) false (Z.of_nat k)
  /\ endTimeRef (snd (focus_sessions env k)) = None.
Proof.
  intros Hnow. induction k as [|k IH].
  - cbn. auto.
  - cbn [focus_sessions].
    destruct (focus_sessions env k) as [env1 h1]. cbn [fst snd] in IH.
    destruct IH as (Hn1 & Hs1 & Hr1).
    assert (Hwork : exists env2 h2,
      (if Mode_eqb (mode (state h1)) work then (env1, h1) else run_out env1 h1)
        = (env2, h2)
      /\ 0 <= dateNow env2
      /\ state h2 = mkState work (TIMES work) false (Z.of_nat k)).
    { rewrite Hs1. cbn [mode].
      destruct k as [|k'].
      - exists env1, h1. cbn. rewrite Hs1. auto.
      - destruct (run_out_spec env1 h1 Hn1) as (Ha & Hb & _).
        { rewrite Hs1. cbn [timeLeft]. apply TIMES_pos. }
        exists (fst (run_out env1 h1)), (snd (run_out env1 h1)).
        rewrite Hs1 in Hb. unfold after_skip in Hb. cbn [mode completedSessions] in Hb.
        unfold cycle_mode in *.
        destruct (Z.of_nat (S k') mod 4 =? 0); cbn [Mode_eqb] in *;
          rewrite <- surjective_pairing; auto. }
    destruct Hwork as (env2 & h2 & -> & Hn2 & Hs2).
    destruct (run_out_spec env2 h2 Hn2) as (Ha & Hb & Hc).
    { rewrite Hs2. reflexivity. }
    split; [assumption|]. split; [|assumption].
    rewrite Hb, Hs2. unfold after_skip. cbn [mode completedSessions Mode_eqb].
    replace (Z.of_nat k + 1) with (Z.of_nat (S k)) by lia.
    unfold cycle_mode, SESSIONS_UNTIL_LONG_BREAK. rewrite rem_4_mod_4.
    reflexivity.
Qed.

(** A start, then one recomputation [ms] milliseconds later, before the
    countdown has run out. *)
Lemma start_then_recompute (env : Env) (ev : Event) (h : Hook) (ms : Z) :
  recomputation ev = true ->
  (ev = VisibilityChange -> visible env = true) ->
  0 <= dateNow env ->
  0 <= ms < timeLeft (state h) * 1000 ->
  fire (at_time env (dateNow env + ms)) ev (fire env Start h) =
  mkHook (mkState (mode (state h)) (timeLeft (state h) - ms / 1000) true
            (completedSessions (state h)))
         (Some (dateNow env + timeLeft (state h) * 1000))
         (inserted h) (effects h).
Proof.
  intros Hev Hvis Hnow Hms.
  destruct (remaining_of_start (dateNow env) (timeLeft (state h)) ms Hms)
    as [Hrem Hpos].
  rewrite fire_Start.
  rewrite recomputation_live; cbn; try assumption; try reflexivity.
  - now rewrite Hrem.
  - apply negb_true_iff, Z.eqb_neq. lia.
  - rewrite Hrem. lia.
Qed.

Lemma notifications_app (a b : list Effect) :
  notifications (a ++ b) = (notifications a + notifications b)%nat.
Proof. unfold notifications. now rewrite filter_app, length_app. Qed.

Lemma toasts_app (a b : list Effect) :
  toasts (a ++ b) = (toasts a + toasts b)%nat.
Proof. unfold toasts. now rewrite filter_app, length_app. Qed.

Lemma errors_app (a b : list Effect) :
  errors (a ++ b) = (errors a + errors b)%nat.
Proof. unfold errors. now rewrite filter_app, length_app. Qed.

(** [handleSkip] shows one toast and plays no sound. *)
Lemma skip_effects_count (env : Env) (s : HookState) :
  notifications (skip_effects env s) = 0%nat /\ toasts (skip_effects env s) = 1%nat.
Proof.
  destruct s as [m t r n]. unfold skip_effects, blank. open_callbacks. cbn.
  destruct m; cbn;
    try (destruct (Z.rem (n + 1) SESSIONS_UNTIL_LONG_BREAK =? 0));
    destruct (getUser env) as [[uid|]|]; try destruct (insertThrows env);
    cbn; auto.
Qed.

Lemma run_recomputations_idle (evs : list (Env * Event)) (h : Hook) :
  Forall (fun p => recomputation (snd p) = true) evs ->
  truthy (endTimeRef h) = false ->
  run evs h = h.
Proof.
  intros Hall Hr. induction Hall as [|[env ev] rest Hev _ IH]; [reflexivity|].
  cbn [run]. cbn in Hev. rewrite (recomputation_idle env ev h Hev Hr). exact IH.
Qed.

(** ** The claims *)

(** C8: for every mode [m] and every starting state, changing the mode to
    [m] sets the mode to [m] and the remaining seconds to the duration of
    [m], stops the timer and clears the target end time, while the count of
    completed focus sessions is unchanged and nothing is handed to the
    store (nor played, shown or logged); the plain variant does the same. *)
Theorem changeMode_effect (env : Env) (m : Mode) (h : Hook) :
  let h' := fire env (ModeChange m) h in
  mode (state h') = m
  /\ timeLeft (state h') = TIMES m
  /\ isRunning (state h') = false
  /\ endTimeRef h' = None
  /\ completedSessions (state h') = completedSessions (state h)
  /\ inserted h' = inserted h
  /\ effects h' = effects h
  /\ Plain.fire env (ModeChange m) h = h'.
Proof. cbv zeta. rewrite fire_ModeChange. cbn. repeat split. Qed.

(** C2: every skip and every natural expiry (a tick or a visibility
    recomputation that computes zero) does the following.  In focus mode
    the count of completed sessions becomes [n], one more than before, and
    the next mode is the long break exactly when [n mod 4 = 0] and the
    short break otherwise; in a break mode the next mode is focus and the
    count is unchanged.  In all cases the new mode is not running, has its
    full duration left and no target end time, and the plain variant
    reaches the same state.  Driving focus sessions to expiry from mount,
    completions 1 to 3 lead to the short break and completions 4 and 8 to
    the long break (in general completion [k] leads to the long break
    exactly when [k mod 4 = 0]). *)
Theorem skip_or_expiry_transition :
  (forall (env : Env) (ev : Event) (h : Hook),
     completes env ev h = true ->
     let n := completedSessions (state h) + 1 in
     let h' := fire env ev h in
     (mode (state h) = work ->
        completedSessions (state h') = n
        /\ (n mod 4 = 0 -> mode (state h') = longBreak)
        /\ (n mod 4 <> 0 -> mode (state h') = break))
     /\ (mode (state h) <> work ->
        mode (state h') = work
        /\ completedSessions (state h') = completedSessions (state h))
     /\ isRunning (state h') = false
     /\ timeLeft (state h') = TIMES (mode (state h'))
     /\ endTimeRef h' = None
     /\ state (Plain.fire env ev h) = state h')
  /\ (forall env : Env,
        0 <= dateNow env ->
        let after k := state (snd (focus_sessions env k)) in
        mode (after 1%nat) = break
        /\ mode (after 2%nat) = break
        /\ mode (after 3%nat) = break
        /\ mode (after 4%nat) = longBreak
        /\ mode (after 8%nat) = longBreak
        /\ forall k : nat,
             (0 < k)%nat ->
             completedSessions (after k) = Z.of_nat k
             /\ mode (after k) =
                if Z.of_nat k mod 4 =? 0 then longBreak else break).
Proof.
  split.
  - intros env ev h Hc. cbv zeta.
    destruct (completes_fire env ev h Hc) as (Hs & Hr & _).
    destruct (Plain_fire_timer env ev h) as (Hp & _).
    rewrite Hp, Hs, Hr. unfold after_skip, SESSIONS_UNTIL_LONG_BREAK.
    rewrite rem_4_mod_4.
    destruct (mode (state h)); cbn [Mode_eqb];
      try (destruct (Z.eqb_spec ((completedSessions (state h) + 1) mod 4) 0));
      cbn; repeat split; intros; try reflexivity; try congruence.
  - intros env Hnow. cbv zeta.
    repeat split;
      try (destruct (focus_sessions_spec env 1 Hnow) as (_ & -> & _); reflexivity);
      try (destruct (focus_sessions_spec env 2 Hnow) as (_ & -> & _); reflexivity);
      try (destruct (focus_sessions_spec env 3 Hnow) as (_ & -> & _); reflexivity);
      try (destruct (focus_sessions_spec env 4 Hnow) as (_ & -> & _); reflexivity);
      try (destruct (focus_sessions_spec env 8 Hnow) as (_ & -> & _); reflexivity);
      destruct (focus_sessions_spec env k Hnow) as (_ & -> & _);
      destruct k; try lia; reflexivity.
Qed.

Lemma skip_or_expiry_transition_witness :
  mode (state (fire (clock 0) Skip mounted)) = break
  /\ mode (state (snd (focus_sessions (clock 0) 4))) = longBreak.
Proof.
  destruct skip_or_expiry_transition as [Hstep Hcycle]. split.
  - destruct (Hstep (clock 0) Skip mounted eq_refl) as (Hwork & _).
    destruct (Hwork eq_refl) as (_ & _ & Hshort).
    apply Hshort. vm_compute. discriminate.
  - assert (Hnow : 0 <= dateNow (clock 0)) by (vm_compute; discriminate).
    destruct (Hcycle (clock 0) Hnow) as (_ & _ & _ & Hfour & _).
    exact Hfour.
Defined.

(** C1: while the timer is running, every recomputation (a tick of the
    animation-frame loop or of the backup interval, or the visibility
    handler on a visible page) calls the [timeLeft] setter, before anything
    else, with [max(0, ceil((endTime - now) / 1000))]; that value is the
    committed [timeLeft] whenever the timer is still running afterwards,
    which is the case whenever it is positive, and then nothing else has
    changed.  Consequently, after a start with [r] seconds left and a
    wall-clock advance of [ms] milliseconds with [0 <= ms < r * 1000], one
    recomputation leaves [r - floor(ms / 1000)] seconds, which is within
    one second of the exact remainder and is exactly [r - d] after [d]
    whole seconds, and the timer is still running; the plain variant
    computes the same. *)
Theorem recomputation_from_deadline :
  (forall (env : Env) (ev : Event) (h : Hook),
     recomputation ev = true ->
     isRunning (state h) = true ->
     truthy (endTimeRef h) = true ->
     (ev = VisibilityChange -> visible env = true) ->
     let remaining :=
       Z.max 0 (ceil_div_1000 (to_number (endTimeRef h) - dateNow env)) in
     let h' := fire env ev h in
     hd_error (writes env ev h) = Some (SetTimeLeft remaining)
     /\ (isRunning (state h') = true -> timeLeft (state h') = remaining)
     /\ (0 < remaining ->
         h' = mkHook (mkState (mode (state h)) remaining true
                        (completedSessions (state h)))
                (endTimeRef h) (inserted h) (effects h)))
  /\ (forall (env : Env) (ev : Event) (h : Hook) (ms : Z),
        recomputation ev = true ->
        (ev = VisibilityChange -> visible env = true) ->
        0 <= dateNow env ->
        0 <= ms < timeLeft (state h) * 1000 ->
        let r := timeLeft (state h) in
        let later := at_time env (dateNow env + ms) in
        let h' := fire later ev (fire env Start h) in
        timeLeft (state h') = r - ms / 1000
        /\ r * 1000 - ms <= timeLeft (state h') * 1000 < r * 1000 - ms + 1000
        /\ (forall d : Z, ms = d * 1000 -> timeLeft (state h') = r - d)
        /\ isRunning (state h') = true
        /\ state (Plain.fire later ev (Plain.fire env Start h)) = state h').
Proof.
  split.
  - intros env ev h Hev Hrun Hr Hvis. cbv zeta.
    fold (remaining_of (to_number (endTimeRef h)) (dateNow env)).
    set (remaining := remaining_of (to_number (endTimeRef h)) (dateNow env)).
    split; [|split].
    + unfold writes. break_hook h. subst r.
      destruct ev; try discriminate; open_callbacks; cbn.
      * rewrite Hr. cbn. fold remaining.
        destruct (remaining =? 0); [|reflexivity].
        unfold handleSkip. open_callbacks. cbn.
        destruct m; cbn;
          try (destruct (Z.rem (n + 1) SESSIONS_UNTIL_LONG_BREAK =? 0));
          destruct (getUser env) as [[uid|]|]; try destruct (insertThrows env);
          reflexivity.
      * rewrite Hvis, Hr by reflexivity. cbn. fold remaining.
        destruct (remaining =? 0); [|reflexivity].
        unfold handleSkip. open_callbacks. cbn.
        destruct m; cbn;
          try (destruct (Z.rem (n + 1) SESSIONS_UNTIL_LONG_BREAK =? 0));
          destruct (getUser env) as [[uid|]|]; try destruct (insertThrows env);
          reflexivity.
    + intros Hstill. destruct (Z.eqb_spec remaining 0) as [Hz|Hnz].
      * assert (Hc : completes env ev h = true).
        { unfold completes, expired. fold remaining. rewrite Hrun, Hr, Hz.
          destruct ev; try discriminate; [reflexivity|].
          rewrite Hvis; reflexivity. }
        destruct (completes_fire env ev h Hc) as (Hs & _).
        rewrite Hs in Hstill. unfold after_skip in Hstill.
        destruct (Mode_eqb (mode (state h)) work); discriminate.
      * rewrite (recomputation_live env ev h Hev Hrun Hvis Hr Hnz). reflexivity.
    + intros Hpos.
      apply (recomputation_live env ev h Hev Hrun Hvis Hr). fold remaining. lia.
  - intros env ev h ms Hev Hvis Hnow Hms. cbv zeta.
    set (later := at_time env (dateNow env + ms)).
    pose proof (start_then_recompute env ev h ms Hev Hvis Hnow Hms) as Hfire.
    fold later in Hfire.
    assert (Hplain : state (Plain.fire later ev (Plain.fire env Start h)) =
                     state (fire later ev (fire env Start h))).
    { change (Plain.fire env Start h) with (fire env Start h).
      apply Plain_fire_timer. }
    rewrite Hplain, Hfire. cbn.
    pose proof (Z.div_mod ms 1000 ltac:(lia)) as Hdm.
    pose proof (Z.mod_pos_bound ms 1000 ltac:(lia)) as Hmb.
    split; [reflexivity|]. split; [lia|]. split; [|split; reflexivity].
    intros d ->. rewrite Z.div_mul by lia. reflexivity.
Qed.

Lemma recomputation_from_deadline_witness :
  timeLeft (state (fire (at_time (clock 1000) (1000 + 7500)) Tick
                     (fire (clock 1000) Start mounted))) = 1500 - 7500 / 1000.
Proof.
  destruct recomputation_from_deadline as [_ Hadvance].
  destruct (Hadvance (clock 1000) Tick mounted 7500) as (Hleft & _).
  - reflexivity.
  - discriminate.
  - vm_compute. discriminate.
  - vm_compute. split; [discriminate|reflexivity].
  - exact Hleft.
Defined.

(** ** The plain variant, event by event *)

(** An event that does not end the interval leaves the same hook in both
    variants. *)
Lemma Plain_fire_not_completing (env : Env) (ev : Event) (h : Hook) :
  completes env ev h = false -> Plain.fire env ev h = fire env ev h.
Proof.
  intros Hc. break_hook h. unfold completes, expired in Hc. cbn in Hc.
  destruct ev; try discriminate; try reflexivity.
  - destruct r; [|reflexivity]. destruct (truthy e) eqn:Hr.
    + cbn in Hc. open_callbacks. cbn. rewrite Hr. cbn. rewrite Hc. reflexivity.
    + open_callbacks. cbn. rewrite Hr. reflexivity.
  - destruct (visible env && r && truthy e) eqn:Hg.
    + apply andb_prop in Hg as [Hg Hr]. apply andb_prop in Hg as [Hvis Hrun].
      rewrite Hvis, Hrun, Hr in Hc. cbn in Hc.
      open_callbacks. cbn. rewrite Hvis, Hrun, Hr. cbn. rewrite Hc. reflexivity.
    + open_callbacks. cbn. rewrite Hg. reflexivity.
Qed.

(** A recomputation of the plain variant that computes zero. *)
Lemma Plain_recomputation_expires (env : Env) (ev : Event) (h : Hook) :
  recomputation ev = true ->
  completes env ev h = true ->
  Plain.fire env ev h =
  mkHook (after_skip (state h)) None (inserted h)
         (effects h ++ PlayNotification :: plain_skip_effects (state h)).
Proof.
  intros Hev Hc. break_hook h.
  unfold completes, expired in Hc. cbn in Hc.
  unfold after_skip, plain_skip_effects, blank.
  destruct ev; try discriminate.
  - apply andb_prop in Hc as [Hrun Hc]. apply andb_prop in Hc as [Hr Hz].
    subst r. open_callbacks. cbn. rewrite Hr. cbn. rewrite Hz.
    unfold Plain.handleSkip. open_callbacks. cbn.
    destruct m; cbn;
      try (destruct (Z.rem (n + 1) SESSIONS_UNTIL_LONG_BREAK =? 0));
      cbn; rewrite <- ?app_assoc, ?app_nil_r; auto.
  - apply andb_prop in Hc as [Hc Hx]. apply andb_prop in Hc as [Hvis Hrun].
    apply andb_prop in Hx as [Hr Hz].
    subst r. open_callbacks. cbn. rewrite Hvis, Hr. cbn. rewrite Hz.
    unfold Plain.handleSkip. open_callbacks. cbn.
    destruct m; cbn;
      try (destruct (Z.rem (n + 1) SESSIONS_UNTIL_LONG_BREAK =? 0));
      cbn; rewrite <- ?app_assoc, ?app_nil_r; auto.
Qed.

Lemma Plain_fire_Skip_effects (env : Env) (h : Hook) :
  Plain.fire env Skip h =
  mkHook (after_skip (state h)) None (inserted h)
         (effects h ++ plain_skip_effects (state h)).
Proof.
  break_hook h. unfold after_skip, plain_skip_effects, blank.
  open_callbacks. cbn.
  destruct m; cbn;
    try (destruct (Z.rem (n + 1) SESSIONS_UNTIL_LONG_BREAK =? 0));
    cbn; rewrite <- ?app_assoc, ?app_nil_r; auto.
Qed.

Lemma plain_skip_effects_count (s : HookState) :
  notifications (plain_skip_effects s) = 0%nat
  /\ toasts (plain_skip_effects s) = 1%nat.
Proof.
  destruct s as [m t r n]. unfold plain_skip_effects, blank. open_callbacks. cbn.
  destruct m; cbn;
    try (destruct (Z.rem (n + 1) SESSIONS_UNTIL_LONG_BREAK =? 0)); cbn; auto.
Qed.

Lemma Plain_updateTimer_idle (env : Env) (c : HookState) (h : Hook) :
  truthy (endTimeRef h) = false -> invoke (Plain.updateTimer env c) h = h.
Proof.
  intros Hr. break_hook h. unfold invoke, Plain.updateTimer. cbn.
  rewrite Hr. reflexivity.
Qed.

Lemma Plain_handleVisibilityChange_idle (env : Env) (c : HookState) (h : Hook) :
  truthy (endTimeRef h) = false ->
  invoke (Plain.handleVisibilityChange env c) h = h.
Proof.
  intros Hr. break_hook h. unfold invoke, Plain.handleVisibilityChange. cbn.
  rewrite Hr, andb_false_r. reflexivity.
Qed.

Lemma Plain_recomputation_idle (env : Env) (ev : Event) (h : Hook) :
  recomputation ev = true ->
  truthy (endTimeRef h) = false ->
  Plain.fire env ev h = h.
Proof.
  intros Hev Hr. destruct ev; try discriminate; unfold Plain.fire, Plain.callback.
  - destruct (isRunning (state h)).
    + now apply Plain_updateTimer_idle.
    + apply invoke_skip.
  - now apply Plain_handleVisibilityChange_idle.
Qed.

Lemma plain_run_recomputations_idle (evs : list (Env * Event)) (h : Hook) :
  Forall (fun p => recomputation (snd p) = true) evs ->
  truthy (endTimeRef h) = false ->
  plain_run evs h = h.
Proof.
  intros Hall Hr. induction Hall as [|[env ev] rest Hev _ IH]; [reflexivity|].
  cbn [plain_run]. cbn in Hev.
  rewrite (Plain_recomputation_idle env ev h Hev Hr). exact IH.
Qed.

(** C3: when a recomputation of a running countdown first computes zero,
    the expiry transition is carried out in that same callback, once: the
    timer is stopped, the target end time is cleared, one notification is
    played, one toast is shown and the state is the one a skip leaves.
    Every recomputation after that (a tick, a visibility change, or a
    stale [updateTimer] or visibility closure of any earlier render, at
    any instant) finds the target end time cleared and leaves the hook as
    it is, so nothing more is played, shown or stored for that interval.
    This holds for the plain variant of the hook and for the saving one. *)
Theorem expiry_exactly_once (env : Env) (ev : Event) (h : Hook) :
  recomputation ev = true ->
  completes env ev h = true ->
  let h' := fire env ev h in
  let p' := Plain.fire env ev h in
  (isRunning (state p') = false
   /\ endTimeRef p' = None
   /\ state p' = state (Plain.fire env Skip h)
   /\ inserted p' = inserted h
   /\ notifications (effects p') = S (notifications (effects h))
   /\ toasts (effects p') = S (toasts (effects h))
   /\ (forall evs : list (Env * Event),
         Forall (fun p => recomputation (snd p) = true) evs ->
         plain_run evs p' = p')
   /\ (forall (env2 : Env) (c : HookState),
         invoke (Plain.updateTimer env2 c) p' = p'
         /\ invoke (Plain.handleVisibilityChange env2 c) p' = p'))
  /\ isRunning (state h') = false
  /\ endTimeRef h' = None
  /\ state h' = state (fire env Skip h)
  /\ inserted h' = inserted (fire env Skip h)
  /\ notifications (effects h') = S (notifications (effects h))
  /\ toasts (effects h') = S (toasts (effects h))
  /\ (forall evs : list (Env * Event),
        Forall (fun p => recomputation (snd p) = true) evs -> run evs h' = h')
  /\ (forall (env2 : Env) (c : HookState),
        invoke (updateTimer env2 c) h' = h'
        /\ invoke (handleVisibilityChange env2 c) h' = h').
Proof.
  intros Hev Hc. cbv zeta.
  assert (Hsound : forall l, PlayNotification :: l = [PlayNotification] ++ l)
    by reflexivity.
  split.
  { rewrite (Plain_recomputation_expires env ev h Hev Hc), Plain_fire_Skip_effects.
    cbn [state endTimeRef inserted effects].
    destruct (plain_skip_effects_count (state h)) as [Hn Ht].
    split.
    { unfold after_skip. destruct (Mode_eqb (mode (state h)) work); reflexivity. }
    split; [reflexivity|]. split; [reflexivity|]. split; [reflexivity|].
    split.
    { rewrite Hsound, !notifications_app, Hn. cbn. lia. }
    split.
    { rewrite Hsound, !toasts_app, Ht. cbn. lia. }
    split.
    - intros evs Hall. now apply plain_run_recomputations_idle.
    - intros env2 c. split.
      + now apply Plain_updateTimer_idle.
      + now apply Plain_handleVisibilityChange_idle. }
  rewrite (recomputation_expires env ev h Hev Hc), fire_Skip.
  cbn [state endTimeRef inserted effects].
  destruct (skip_effects_count env (state h)) as [Hn Ht].
  split.
  { unfold after_skip. destruct (Mode_eqb (mode (state h)) work); reflexivity. }
  split; [reflexivity|]. split; [reflexivity|]. split; [reflexivity|].
  split.
  { rewrite Hsound, !notifications_app, Hn. cbn. lia. }
  split.
  { rewrite Hsound, !toasts_app, Ht. cbn. lia. }
  split.
  - intros evs Hall. now apply run_recomputations_idle.
  - intros env2 c. split.
    + now apply updateTimer_idle.
    + now apply handleVisibilityChange_idle.
Qed.

(** Background, then foreground: started with ten seconds left, fifteen
    seconds pass without any recomputation, then the page becomes visible.
    That one recomputation completes the focus session; a tick and a second
    visibility change afterwards change nothing, in either variant. *)
Lemma expiry_exactly_once_witness :
  let h := fire (clock 2000000) Start ten_left in
  let h' := fire (clock 2015000) VisibilityChange h in
  let p' := Plain.fire (clock 2015000) VisibilityChange h in
  timeLeft (state h) = 10
  /\ state h' = mkState break 300 false 1
  /\ effects h' = [PlayNotification; ShowToast BreakToast]
  /\ run [(clock 2015016, Tick); (clock 2016000, VisibilityChange)] h' = h'
  /\ state p' = mkState break 300 false 1
  /\ effects p' = [PlayNotification; ShowToast BreakToast]
  /\ plain_run [(clock 2015016, Tick); (clock 2016000, VisibilityChange)] p' = p'.
Proof.
  cbv zeta.
  pose proof (expiry_exactly_once (clock 2015000) VisibilityChange
                (fire (clock 2000000) Start ten_left) eq_refl eq_refl) as Hx.
  cbv zeta in Hx.
  destruct Hx as ((_ & _ & _ & _ & _ & _ & Hplain & _)
                  & _ & _ & _ & _ & _ & _ & Hlater & _).
  split; [reflexivity|]. split; [reflexivity|]. split; [reflexivity|].
  split; [apply Hlater; repeat constructor|].
  split; [reflexivity|]. split; [reflexivity|].
  apply Hplain. repeat constructor.
Defined.

(** C4, as stated, fails: a second start half a second after the first
    moves the target end time from 1501000 to 1501500, so the tick at
    1501000 that would have ended the session no longer does. *)
Lemma start_while_running_moves_deadline :
  let h := fire (clock 1000) Start mounted in
  let h' := fire (clock 1500) Start h in
  isRunning (state h) = true
  /\ endTimeRef h = Some 1501000
  /\ endTimeRef h' = Some 1501500
  /\ h' <> h
  /\ isRunning (state (fire (clock 1501000) Tick h)) = false
  /\ isRunning (state (fire (clock 1501000) Tick h')) = true.
Proof.
  cbv zeta. repeat split; try reflexivity. discriminate.
Qed.

(** C4, amended: a start while the timer is already running leaves the
    mode, the remaining seconds, the running flag, the count of completed
    sessions, the stored rows and the effects as they are, and sets the
    target end time anew to now plus the remaining seconds; it is a no-op
    exactly when that is the target end time already.  The play/pause
    button never calls it on a running timer: its click pauses.  The plain
    variant does the same. *)
Theorem start_while_running (env : Env) (h : Hook) :
  isRunning (state h) = true ->
  let h' := fire env Start h in
  state h' = state h
  /\ inserted h' = inserted h
  /\ effects h' = effects h
  /\ endTimeRef h' = Some (dateNow env + timeLeft (state h) * 1000)
  /\ (h' = h <-> endTimeRef h = Some (dateNow env + timeLeft (state h) * 1000))
  /\ playPauseClick h = Pause
  /\ Plain.fire env Start h = h'.
Proof.
  intros Hrun. cbv zeta. rewrite fire_Start. unfold playPauseClick.
  rewrite Hrun. break_hook h. subst r.
  repeat split; try reflexivity.
  - intros Heq. injection Heq as Heq. now symmetry.
  - intros ->. reflexivity.
Qed.

Lemma start_while_running_witness :
  endTimeRef (fire (clock 1500) Start (fire (clock 1000) Start mounted))
  = Some (1500 + 1500 * 1000).
Proof.
  destruct (start_while_running (clock 1500) (fire (clock 1000) Start mounted)
              eq_refl) as (_ & _ & _ & Href & _).
  exact Href.
Defined.

(** ** Pausing and resuming *)

Lemma last_cons (d a : Z) (rest : list Z) : last (d :: rest) a = last rest d.
Proof.
  revert d a. induction rest as [|x rest IH]; intros d a; [reflexivity|].
  change (last (d :: x :: rest) a) with (last (x :: rest) a).
  rewrite (IH x a). symmetry. apply IH.
Qed.

Lemma in_order_bounds (offsets : list Z) :
  forall from upto : Z,
    in_order from offsets upto ->
    Forall (fun d => from <= d <= upto) offsets
    /\ from <= last offsets from <= upto.
Proof.
  induction offsets as [|d rest IH]; intros from upto Hord.
  - cbn in *. split; [constructor|lia].
  - destruct Hord as [Hd Hrest]. destruct (IH d upto Hrest) as [Hall Hlast].
    rewrite last_cons. split; [|lia].
    constructor; [lia|].
    eapply Forall_impl; [|exact Hall]. cbn. intros x Hx. lia.
Qed.

(** One tick of a running countdown before its end. *)
Lemma tick_live (env : Env) (m : Mode) (n r : Z) (ins : list Row)
    (eff : list Effect) (d x : Z) :
  0 <= dateNow env ->
  0 <= d < r * 1000 ->
  fire (at_time env (dateNow env + d)) Tick
    (mkHook (mkState m x true n) (Some (dateNow env + r * 1000)) ins eff)
  = mkHook (mkState m (r - d / 1000) true n) (Some (dateNow env + r * 1000)) ins eff.
Proof.
  intros Hnow Hd.
  destruct (remaining_of_start (dateNow env) r d Hd) as [Hrem Hpos].
  rewrite recomputation_live; cbn; try reflexivity.
  - now rewrite Hrem.
  - discriminate.
  - apply negb_true_iff, Z.eqb_neq. lia.
  - rewrite Hrem. lia.
Qed.

(** Ticks of a running countdown that do not reach its end: the last one
    decides the remaining seconds. *)
Lemma tick_at_spec (env : Env) (m : Mode) (n r : Z) (ins : list Row)
    (eff : list Effect) (offsets : list Z) :
  0 <= dateNow env ->
  Forall (fun d => 0 <= d < r * 1000) offsets ->
  forall x : Z,
    tick_at env offsets
      (mkHook (mkState m x true n) (Some (dateNow env + r * 1000)) ins eff)
    = mkHook (mkState m (match offsets with
                         | [] => x
                         | _ => r - last offsets 0 / 1000
                         end) true n)
        (Some (dateNow env + r * 1000)) ins eff.
Proof.
  intros Hnow Hall. induction Hall as [|d rest Hd _ IH]; intros x; [reflexivity|].
  cbn [tick_at].
  rewrite (tick_live env m n r ins eff d x Hnow Hd), IH, last_cons.
  destruct rest as [|d' rest]; [reflexivity|].
  rewrite !last_cons. reflexivity.
Qed.

(** On the same ticks the plain variant leaves the same hook. *)
Lemma plain_tick_at_spec (env : Env) (m : Mode) (n r : Z) (ins : list Row)
    (eff : list Effect) (offsets : list Z) :
  0 <= dateNow env ->
  Forall (fun d => 0 <= d < r * 1000) offsets ->
  forall x : Z,
    plain_tick_at env offsets
      (mkHook (mkState m x true n) (Some (dateNow env + r * 1000)) ins eff)
    = tick_at env offsets
        (mkHook (mkState m x true n) (Some (dateNow env + r * 1000)) ins eff).
Proof.
  intros Hnow Hall. induction Hall as [|d rest Hd _ IH]; intros x; [reflexivity|].
  cbn [tick_at plain_tick_at].
  destruct (remaining_of_start (dateNow env) r d Hd) as [Hrem Hpos].
  rewrite Plain_fire_not_completing.
  - rewrite (tick_live env m n r ins eff d x Hnow Hd). apply IH.
  - unfold completes, expired.
    cbn [state isRunning endTimeRef to_number dateNow at_time].
    rewrite Hrem.
    replace (r - d / 1000 =? 0) with false by (symmetry; apply Z.eqb_neq; lia).
    rewrite !andb_false_r. reflexivity.
Qed.

Lemma run_stretch_spec (s : Stretch) (h : Hook) :
  stretch_ok s ->
  paused s < timeLeft (state h) * 1000 ->
  run_stretch s h =
  mkHook (mkState (mode (state h)) (timeLeft (state h) - last_tick s / 1000) false
            (completedSessions (state h)))
         None (inserted h) (effects h)
  /\ plain_run_stretch s h = run_stretch s h.
Proof.
  intros [Hnow Hord] Hlt.
  destruct (in_order_bounds _ _ _ Hord) as [Hall Hlast].
  assert (Hticks : Forall (fun d => 0 <= d < timeLeft (state h) * 1000) (ticked s)).
  { eapply Forall_impl; [|exact Hall]. cbn. intros d Hd. lia. }
  unfold run_stretch, plain_run_stretch, last_tick.
  change (Plain.fire (begun s) Start h) with (fire (begun s) Start h).
  rewrite fire_Start.
  rewrite (plain_tick_at_spec _ _ _ _ _ _ _ Hnow Hticks).
  rewrite (tick_at_spec _ _ _ _ _ _ _ Hnow Hticks).
  split; [|reflexivity].
  rewrite fire_Pause. cbn.
  destruct (ticked s); [|reflexivity].
  cbn. rewrite Z.sub_0_r. reflexivity.
Qed.

Lemma running_ms_bounds (l : list Stretch) :
  Forall stretch_ok l ->
  seen_seconds l * 1000 <= running_ms l
  /\ running_ms l <= seen_seconds l * 1000 + unseen_ms l
                     + 999 * Z.of_nat (List.length l)
  /\ 0 <= seen_seconds l
  /\ 0 <= unseen_ms l.
Proof.
  induction 1 as [|s rest [_ Hord] _ IH];
    cbn [running_ms seen_seconds unseen_ms List.length].
  - cbn. lia.
  - destruct (in_order_bounds _ _ _ Hord) as [_ Hlast]. fold (last_tick s) in Hlast.
    pose proof (Z.div_mod (last_tick s) 1000 ltac:(lia)) as Hdm.
    pose proof (Z.mod_pos_bound (last_tick s) 1000 ltac:(lia)) as Hmb.
    assert (0 <= last_tick s / 1000) by (apply Z.div_pos; lia).
    lia.
Qed.

Lemma run_stretches_spec (l : list Stretch) :
  Forall stretch_ok l ->
  forall h : Hook,
  running_ms l < timeLeft (state h) * 1000 ->
  state (run_stretches l h) =
  mkState (mode (state h)) (timeLeft (state h) - seen_seconds l)
    (match l with [] => isRunning (state h) | _ => false end)
    (completedSessions (state h))
  /\ inserted (run_stretches l h) = inserted h
  /\ effects (run_stretches l h) = effects h
  /\ plain_run_stretches l h = run_stretches l h.
Proof.
  induction 1 as [|s rest Hok Hrest IH]; intros h Hlt.
  - cbn. rewrite Z.sub_0_r. destruct h as [[m t r n] e ins eff]. auto.
  - cbn [run_stretches plain_run_stretches running_ms seen_seconds] in *.
    destruct (running_ms_bounds rest Hrest) as (Hlo & _ & Hws & _).
    destruct Hok as [Hnow Hord].
    destruct (in_order_bounds _ _ _ Hord) as [_ Hlast]. fold (last_tick s) in Hlast.
    pose proof (Z.div_mod (last_tick s) 1000 ltac:(lia)) as Hdm.
    pose proof (Z.mod_pos_bound (last_tick s) 1000 ltac:(lia)) as Hmb.
    destruct (run_stretch_spec s h (conj Hnow Hord) ltac:(lia)) as [Hone Hplain].
    rewrite Hplain, Hone.
    match goal with |- context [run_stretches rest ?h1] =>
      destruct (IH h1) as (Hs & Hi & He & Hp) end.
    { cbn. lia. }
    rewrite Hs, Hi, He, Hp. cbn. repeat split. f_equal; [lia|].
    destruct rest; reflexivity.
Qed.

Lemma seen_seconds_exact (l : list Stretch) :
  Forall (fun s => last_tick s = paused s /\ paused s mod 1000 = 0) l ->
  running_ms l = seen_seconds l * 1000.
Proof.
  induction 1 as [|s rest [Hlast Hms] _ IH]; cbn [running_ms seen_seconds].
  - reflexivity.
  - rewrite Hlast.
    pose proof (Z.div_mod (paused s) 1000 ltac:(lia)) as Hdm. lia.
Qed.

(** C5, as stated, fails: three stretches of 999 ms each, every one
    observed by a tick at the instant of its pause, are 2997 ms of running,
    and the focus countdown still shows its full 1500 seconds, in the plain
    variant as well. *)
Lemma pause_resume_loses_time :
  let l := [mkStretch (clock 1000) [999] 999; mkStretch (clock 5000) [999] 999;
            mkStretch (clock 9000) [999] 999] in
  let h' := run_stretches l mounted in
  running_ms l = 2997
  /\ mode (state h') = work
  /\ timeLeft (state h') = TIMES work
  /\ running_ms l <> (TIMES (mode (state h')) - timeLeft (state h')) * 1000
  /\ plain_run_stretches l mounted = h'.
Proof.
  cbv zeta.
  split; [vm_compute; reflexivity|]. split; [vm_compute; reflexivity|].
  split; [vm_compute; reflexivity|]. split; [vm_compute; discriminate|].
  vm_compute. reflexivity.
Qed.

(** C5, amended: take a mode at its full duration and any finite sequence
    of stretches (a start, any ticks at instants that do not go back, a
    pause) with no mode change or reset between them, whose running time
    stays below the duration.  Then the mode and the count of completed
    sessions are unchanged and each stretch takes off the remaining
    seconds the whole seconds that had passed at its last tick (nothing
    when it had no tick): a pause does not recompute.  So the duration
    minus the final remaining seconds never exceeds the wall-clock running
    time, no time is gained, and it falls short of it by the time run
    after the last tick of each stretch and at most 999 ms more per
    stretch; the two are equal when every stretch is observed by a tick at
    the instant of its pause and lasts a whole number of seconds.  The
    plain variant of the hook leaves the same hook. *)
Theorem pause_resume_accounting (l : list Stretch) (h : Hook) :
  Forall stretch_ok l ->
  timeLeft (state h) = TIMES (mode (state h)) ->
  running_ms l < TIMES (mode (state h)) * 1000 ->
  let h' := run_stretches l h in
  let counted := (TIMES (mode (state h')) - timeLeft (state h')) * 1000 in
  mode (state h') = mode (state h)
  /\ completedSessions (state h') = completedSessions (state h)
  /\ timeLeft (state h') = TIMES (mode (state h)) - seen_seconds l
  /\ counted <= running_ms l
  /\ running_ms l <= counted + unseen_ms l + 999 * Z.of_nat (List.length l)
  /\ (Forall (fun s => last_tick s = paused s /\ paused s mod 1000 = 0) l ->
      running_ms l = counted)
  /\ plain_run_stretches l h = h'.
Proof.
  intros Hok Hfull Hlt. cbv zeta.
  destruct (run_stretches_spec l Hok h) as (Hs & _ & _ & Hplain); [lia|].
  destruct (running_ms_bounds l Hok) as (Hlo & Hhi & _).
  rewrite Hs. cbn [mode timeLeft completedSessions]. rewrite Hfull.
  split; [reflexivity|]. split; [reflexivity|]. split; [reflexivity|].
  split; [lia|]. split; [lia|]. split; [|exact Hplain].
  intros Hwhole. rewrite (seen_seconds_exact l Hwhole). lia.
Qed.

(** A stretch whose last tick comes 15 ms before the pause, and one with
    no tick at all: 1990 ms seen of 2005, nothing seen of 700. *)
Lemma pause_resume_accounting_witness :
  timeLeft (state (run_stretches [mkStretch (clock 0) [16; 1990] 2005;
                                  mkStretch (clock 9000) [] 700] mounted))
  = TIMES work - (1 + 0).
Proof.
  destruct (pause_resume_accounting [mkStretch (clock 0) [16; 1990] 2005;
                                     mkStretch (clock 9000) [] 700] mounted)
    as (_ & _ & Hleft & _).
  - repeat constructor; vm_compute; discriminate.
  - reflexivity.
  - reflexivity.
  - exact Hleft.
Defined.

(** ** Session records *)

Lemma skip_rows_cases (env : Env) (s : HookState) :
  skip_rows env s =
  if Mode_eqb (mode s) work then
    match getUser env with
    | Returns (Some uid) => [focus_row env uid]
    | _ => []
    end
  else [].
Proof.
  destruct s as [m t r n]. unfold skip_rows, blank, focus_row. open_callbacks. cbn.
  destruct m; cbn;
    try (destruct (Z.rem (n + 1) SESSIONS_UNTIL_LONG_BREAK =? 0));
    destruct (getUser env) as [[uid|]|]; try destruct (insertThrows env);
    reflexivity.
Qed.

Lemma skip_effects_errors (env : Env) (s : HookState) :
  getUser env = Returns None -> errors (skip_effects env s) = 0%nat.
Proof.
  intros Hu. destruct s as [m t r n]. unfold skip_effects, blank.
  open_callbacks. rewrite Hu. cbn.
  destruct m; cbn;
    try (destruct (Z.rem (n + 1) SESSIONS_UNTIL_LONG_BREAK =? 0)); reflexivity.
Qed.

Lemma visibility_guard_off (env : Env) (h : Hook) :
  visible env && isRunning (state h) && truthy (endTimeRef h) = false ->
  fire env VisibilityChange h = h.
Proof.
  intros Hg. break_hook h. unfold fire, invoke, callback, handleVisibilityChange.
  cbn. rewrite Hg. reflexivity.
Qed.

Lemma tick_guard_off (env : Env) (h : Hook) :
  isRunning (state h) = false -> fire env Tick h = h.
Proof.
  intros Hg. unfold fire, callback. rewrite Hg. apply invoke_skip.
Qed.

(** Only an event that ends the interval reaches the store. *)
Lemma fire_inserted (env : Env) (ev : Event) (h : Hook) :
  inserted (fire env ev h) =
  inserted h ++ (if completes env ev h then skip_rows env (state h) else []).
Proof.
  destruct (completes env ev h) eqn:Hc.
  - now destruct (completes_fire env ev h Hc) as (_ & _ & ->).
  - rewrite app_nil_r. unfold completes, expired in Hc.
    destruct ev; try discriminate; try reflexivity.
    + destruct (isRunning (state h)) eqn:Hrun;
        [|now rewrite tick_guard_off].
      destruct (truthy (endTimeRef h)) eqn:Hr;
        [|now rewrite recomputation_idle].
      cbn in Hc. apply Z.eqb_neq in Hc.
      rewrite recomputation_live; auto. discriminate.
    + destruct (visible env && isRunning (state h) && truthy (endTimeRef h)) eqn:Hg;
        [|now rewrite visibility_guard_off].
      apply andb_prop in Hg as [Hg Hr]. apply andb_prop in Hg as [Hvis Hrun].
      rewrite Hvis, Hrun, Hr in Hc. cbn in Hc. apply Z.eqb_neq in Hc.
      rewrite recomputation_live; auto.
Qed.

Lemma run_inserted (P : Row -> Prop) :
  (forall env s r, In r (skip_rows env s) -> P r) ->
  forall (evs : list (Env * Event)) (h : Hook),
    Forall P (inserted h) -> Forall P (inserted (run evs h)).
Proof.
  intros Hskip. induction evs as [|[env ev] rest IH]; intros h Hall.
  - exact Hall.
  - cbn [run]. apply IH. rewrite fire_inserted. apply Forall_app. split.
    + exact Hall.
    + destruct (completes env ev h); [|constructor].
      apply Forall_forall. intros r Hin. eapply Hskip, Hin.
Qed.

Lemma skip_rows_focus (env : Env) (s : HookState) (r : Row) :
  In r (skip_rows env s) -> exists uid, r = focus_row env uid.
Proof.
  rewrite skip_rows_cases.
  destruct (Mode_eqb (mode s) work); [|contradiction].
  destruct (getUser env) as [[uid|]|]; try contradiction.
  intros [<-|[]]. now exists uid.
Qed.

(** C6, as stated, fails: with nobody signed in, a focus session that is
    skipped, and one that runs out, hand nothing to the store. *)
Lemma focus_completion_without_record :
  let h := fire (clock 0) Start mounted in
  mode (state mounted) = work
  /\ completes (clock 0) Skip mounted = true
  /\ inserted (fire (clock 0) Skip mounted) = []
  /\ completes (clock 1500000) Tick h = true
  /\ inserted (fire (clock 1500000) Tick h) = []
  /\ completedSessions (state (fire (clock 1500000) Tick h)) = 1.
Proof. cbv zeta. repeat split; reflexivity. Qed.

(** C6, amended: a focus completion, by skip or by natural expiry, hands
    exactly one record to the store when a user is signed in, and none when
    the identity query returns no user or fails; the completion of a short
    or long break hands over none, and neither does any event that does
    not end the interval. *)
Theorem session_record_per_focus_completion (env : Env) (ev : Event) (h : Hook) :
  let h' := fire env ev h in
  (completes env ev h = true ->
   mode (state h) = work ->
   forall uid, getUser env = Returns (Some uid) ->
     inserted h' = inserted h ++ [focus_row env uid])
  /\ (completes env ev h = true ->
      mode (state h) = work ->
      getUser env = Returns None \/ getUser env = Throws ->
      inserted h' = inserted h)
  /\ (completes env ev h = true ->
      mode (state h) <> work ->
      inserted h' = inserted h)
  /\ (completes env ev h = false -> inserted h' = inserted h).
Proof.
  cbv zeta. rewrite fire_inserted, skip_rows_cases.
  split; [|split; [|split]].
  - intros -> -> uid ->. reflexivity.
  - intros -> -> [-> | ->]; apply app_nil_r.
  - intros -> Hm. destruct (mode (state h)); try congruence; apply app_nil_r.
  - intros ->. apply app_nil_r.
Qed.

Lemma session_record_per_focus_completion_witness :
  inserted (fire (signed_in 1500000) Tick (fire (signed_in 0) Start mounted))
  = [mkRow "user-1" "pomodoro" 25 (Some "essay"%string) 1]
  /\ inserted (fire (signed_in 300000) Skip
                 (fire (signed_in 0) (ModeChange break) mounted)) = [].
Proof.
  split.
  - destruct (session_record_per_focus_completion (signed_in 1500000) Tick
                (fire (signed_in 0) Start mounted)) as (Hone & _).
    exact (Hone eq_refl eq_refl "user-1"%string eq_refl).
  - destruct (session_record_per_focus_completion (signed_in 300000) Skip
                (fire (signed_in 0) (ModeChange break) mounted))
      as (_ & _ & Hbreak & _).
    apply Hbreak; [reflexivity|discriminate].
Defined.

(** C7: every record handed to the store in the life of a hook reports
    the full nominal focus duration in minutes, [floor(TIMES.work / 60)],
    which is 25; that includes the record of a focus session skipped early. *)
Theorem session_record_duration (evs : list (Env * Event)) (r : Row) :
  In r (inserted (run evs mounted)) ->
  duration_minutes r = TIMES work / 60 /\ duration_minutes r = 25.
Proof.
  intros Hin.
  assert (Hall : Forall (fun r => duration_minutes r = 25)
                   (inserted (run evs mounted))).
  { apply run_inserted; [|constructor].
    intros env s r' Hr'. destruct (skip_rows_focus env s r' Hr') as [uid ->].
    reflexivity. }
  rewrite Forall_forall in Hall. split; [exact (Hall r Hin)|exact (Hall r Hin)].
Qed.

(** A focus session started, observed after one second and skipped. *)
Lemma session_record_duration_witness :
  duration_minutes (mkRow "user-1" "pomodoro" 25 (Some "essay"%string) 1) = 25.
Proof.
  apply (session_record_duration
           [(signed_in 0, Start); (signed_in 1000, Tick); (signed_in 1000, Skip)]).
  vm_compute. left. reflexivity.
Defined.

(** C9: when a focus session completes, by skip or by natural expiry, and
    the identity query returns no user, nothing is handed to the store and
    no error is logged, while the timer moves on as usual: the count of
    completed sessions goes up by one, the next mode is the long break when
    the new count is a multiple of 4 and the short break otherwise, not
    running, at its full duration; the state is the one reached with a
    user signed in. *)
Theorem unauthenticated_completion (env : Env) (ev : Event) (h : Hook) :
  completes env ev h = true ->
  mode (state h) = work ->
  getUser env = Returns None ->
  let n := completedSessions (state h) + 1 in
  let h' := fire env ev h in
  inserted h' = inserted h
  /\ errors (effects h') = errors (effects h)
  /\ completedSessions (state h') = n
  /\ mode (state h') = (if n mod 4 =? 0 then longBreak else break)
  /\ isRunning (state h') = false
  /\ timeLeft (state h') = TIMES (mode (state h'))
  /\ endTimeRef h' = None
  /\ forall uid : string,
       state h' = state (fire (with_user env (Returns (Some uid))) ev h).
Proof.
  intros Hc Hm Hu. cbv zeta.
  assert (Hcases : ev = Skip \/ recomputation ev = true)
    by (destruct ev; try discriminate; auto).
  assert (Herr : errors (effects (fire env ev h)) = errors (effects h)).
  { pose proof (skip_effects_errors env (state h) Hu) as He.
    destruct Hcases as [->|Hev].
    - rewrite fire_Skip. cbn [effects]. rewrite errors_app, He. lia.
    - rewrite (recomputation_expires env ev h Hev Hc). cbn [effects].
      change (PlayNotification :: skip_effects env (state h))
        with ([PlayNotification] ++ skip_effects env (state h)).
      rewrite !errors_app, He. cbn. lia. }
  destruct (completes_fire env ev h Hc) as (Hs & Hr & Hi).
  assert (Hsame : forall uid : string,
            state (fire env ev h) =
            state (fire (with_user env (Returns (Some uid))) ev h)).
  { intros uid.
    assert (Hc' : completes (with_user env (Returns (Some uid))) ev h = true)
      by exact Hc.
    destruct (completes_fire _ ev h Hc') as (-> & _). exact Hs. }
  split; [|split; [exact Herr|]].
  { rewrite Hi, skip_rows_cases, Hm, Hu. apply app_nil_r. }
  rewrite Hs, Hr in *.
  unfold after_skip, SESSIONS_UNTIL_LONG_BREAK in *. rewrite Hm, rem_4_mod_4 in *.
  cbn [Mode_eqb mode timeLeft isRunning completedSessions] in *.
  repeat (split; [reflexivity|]). exact Hsame.
Qed.

Lemma unauthenticated_completion_witness :
  let h' := fire (clock 1500000) Tick (fire (clock 0) Start mounted) in
  inserted h' = [] /\ completedSessions (state h') = 1 /\ mode (state h') = break.
Proof.
  cbv zeta.
  destruct (unauthenticated_completion (clock 1500000) Tick
              (fire (clock 0) Start mounted) eq_refl eq_refl eq_refl)
    as (Hi & _ & Hn & Hm & _).
  split; [exact Hi|]. split; [exact Hn|exact Hm].
Defined.

(** C10: every row handed to the [study_sessions] store in the life of a
    hook has the mode string "pomodoro": [saveSession] is only ever called
    for the focus mode, whose internal name "work" it replaces, so no break
    mode is inserted; every such row passes the CHECK constraint on
    [mode]. *)
Theorem inserted_rows_are_pomodoro (evs : list (Env * Event)) (r : Row) :
  In r (inserted (run evs mounted)) ->
  row_mode r = "pomodoro"%string /\ study_sessions_mode_check r = true.
Proof.
  intros Hin.
  assert (Hall : Forall (fun r => row_mode r = "pomodoro"%string)
                   (inserted (run evs mounted))).
  { apply run_inserted; [|constructor].
    intros env s r' Hr'. destruct (skip_rows_focus env s r' Hr') as [uid ->].
    reflexivity. }
  rewrite Forall_forall in Hall. pose proof (Hall r Hin) as Hmode.
  split; [exact Hmode|]. unfold study_sessions_mode_check. rewrite Hmode.
  reflexivity.
Qed.

Lemma inserted_rows_are_pomodoro_witness :
  study_sessions_mode_check
    (mkRow "user-1" "pomodoro" 25 (Some "essay"%string) 1) = true.
Proof.
  apply (inserted_rows_are_pomodoro
           [(signed_in 0, Start); (signed_in 1500000, VisibilityChange);
            (signed_in 1500000, Skip); (signed_in 1500000, Skip)]).
  vm_compute. left. reflexivity.
Defined.

(** * Further properties of the hook *)

(** ** What one event can do *)

Lemma after_skip_frame (m : Mode) (t t' : Z) (r r' : bool) (n : Z) :
  after_skip (mkState m t r n) = after_skip (mkState m t' r' n).
Proof. reflexivity. Qed.

Lemma skip_rows_frame (env : Env) (m : Mode) (t t' : Z) (r r' : bool) (n : Z) :
  skip_rows env (mkState m t r n) = skip_rows env (mkState m t' r' n).
Proof. reflexivity. Qed.

Lemma skip_effects_frame (env : Env) (m : Mode) (t t' : Z) (r r' : bool) (n : Z) :
  skip_effects env (mkState m t r n) = skip_effects env (mkState m t' r' n).
Proof. reflexivity. Qed.

(** A recomputation does nothing, or replaces [timeLeft], or ends the
    interval. *)
Lemma recomputation_cases (env : Env) (ev : Event) (h : Hook) :
  recomputation ev = true ->
  fire env ev h = h
  \/ (isRunning (state h) = true
      /\ truthy (endTimeRef h) = true
      /\ (ev = VisibilityChange -> visible env = true)
      /\ remaining_of (to_number (endTimeRef h)) (dateNow env) <> 0
      /\ completes env ev h = false)
  \/ (isRunning (state h) = true
      /\ truthy (endTimeRef h) = true
      /\ (ev = VisibilityChange -> visible env = true)
      /\ remaining_of (to_number (endTimeRef h)) (dateNow env) = 0
      /\ completes env ev h = true).
Proof.
  intros Hev.
  destruct (isRunning (state h)) eqn:Hrun.
  2:{ left. destruct ev; try discriminate.
      - now apply tick_guard_off.
      - apply visibility_guard_off. rewrite Hrun, andb_false_r. reflexivity. }
  destruct (truthy (endTimeRef h)) eqn:Hr.
  2:{ left. now apply recomputation_idle. }
  assert (Hvis : (ev = VisibilityChange -> visible env = true)
                 \/ (ev = VisibilityChange /\ visible env = false)).
  { destruct ev; try discriminate.
    - left. discriminate.
    - destruct (visible env); [left; reflexivity|right; auto]. }
  destruct Hvis as [Hvis|[-> Hvis]].
  2:{ left. apply visibility_guard_off. now rewrite Hvis. }
  destruct (Z.eqb_spec (remaining_of (to_number (endTimeRef h)) (dateNow env)) 0)
    as [Hz|Hnz].
  - right. right. repeat split; try assumption.
    unfold completes, expired. rewrite Hrun, Hr, Hz.
    destruct ev; try discriminate; [reflexivity|].
    rewrite Hvis; reflexivity.
  - right. left. repeat split; try assumption.
    unfold completes, expired. rewrite Hrun, Hr.
    apply Z.eqb_neq in Hnz. rewrite Hnz.
    destruct ev; try discriminate; [reflexivity|].
    rewrite Hvis; reflexivity.
Qed.

Lemma stops_clears (env : Env) (ev : Event) (h : Hook) :
  stops ev = true ->
  endTimeRef (fire env ev h) = None /\ isRunning (state (fire env ev h)) = false.
Proof.
  intros Hev. destruct ev; try discriminate.
  - rewrite fire_Pause. auto.
  - rewrite fire_Reset. auto.
  - rewrite fire_ModeChange. auto.
  - rewrite fire_Skip. cbn. unfold after_skip.
    destruct (Mode_eqb (mode (state h)) work); auto.
Qed.

Lemma ceil_div_1000_upper (x k : Z) :
  x <= k * 1000 -> ceil_div_1000 x <= k.
Proof.
  intros Hx. unfold ceil_div_1000.
  assert (- k <= (- x) / 1000) by (apply Z.div_le_lower_bound; lia).
  lia.
Qed.

Lemma ceil_div_1000_covers (x : Z) : x <= ceil_div_1000 x * 1000.
Proof.
  unfold ceil_div_1000.
  pose proof (Z.div_mod (- x) 1000 ltac:(lia)) as Hdm.
  pose proof (Z.mod_pos_bound (- x) 1000 ltac:(lia)) as Hmb.
  lia.
Qed.

Lemma rows_at_time (env : Env) (t1 t2 : Z) (s : HookState) :
  skip_rows (at_time env t1) s = skip_rows (at_time env t2) s
  /\ skip_effects (at_time env t1) s = skip_effects (at_time env t2) s.
Proof. split; reflexivity. Qed.

(** ** Pause and reset *)

(** X1: pausing twice, at any two instants, leaves exactly what pausing
    once leaves; a pause keeps the mode, the remaining seconds, the count,
    the stored rows and the effects, and on a timer that is already stopped
    with no target end time it changes nothing at all. *)
Theorem pause_twice (env1 env2 : Env) (h : Hook) :
  fire env2 Pause (fire env1 Pause h) = fire env1 Pause h
  /\ fire env1 Pause h =
     mkHook (mkState (mode (state h)) (timeLeft (state h)) false
               (completedSessions (state h)))
            None (inserted h) (effects h)
  /\ (isRunning (state h) = false -> endTimeRef h = None -> fire env1 Pause h = h)
  /\ Plain.fire env2 Pause (Plain.fire env1 Pause h) = fire env1 Pause h.
Proof.
  split; [reflexivity|]. split; [reflexivity|]. split; [|reflexivity].
  intros Hrun Href. break_hook h. subst. reflexivity.
Qed.

(** X2: a reset is the same as choosing the current mode again: it puts
    the full duration of the current mode back, stops the timer and clears
    the target end time, keeps the mode, the count, the stored rows and the
    effects, and a second reset changes nothing more. *)
Theorem reset_is_mode_change (env env' : Env) (h : Hook) :
  fire env Reset h = fire env (ModeChange (mode (state h))) h
  /\ fire env Reset h =
     mkHook (mkState (mode (state h)) (TIMES (mode (state h))) false
               (completedSessions (state h)))
            None (inserted h) (effects h)
  /\ fire env' Reset (fire env Reset h) = fire env Reset h
  /\ Plain.fire env Reset h = fire env Reset h.
Proof. repeat split. Qed.

(** X3: once the timer has been paused, reset, switched to a mode or
    skipped, no tick and no visibility change, however many and however
    late, changes anything: a stopped timer never completes on its own. *)
Theorem stopped_timer_stays (env : Env) (ev : Event) (h : Hook)
    (evs : list (Env * Event)) :
  stops ev = true ->
  Forall (fun p => recomputation (snd p) = true) evs ->
  run evs (fire env ev h) = fire env ev h.
Proof.
  intros Hev Hall. apply run_recomputations_idle; [assumption|].
  destruct (stops_clears env ev h Hev) as [-> _]. reflexivity.
Qed.

Lemma stopped_timer_stays_witness :
  run [(clock 1600000, Tick); (clock 1700000, VisibilityChange)]
      (fire (clock 2000) Pause (fire (clock 1000) Start mounted))
  = fire (clock 2000) Pause (fire (clock 1000) Start mounted).
Proof.
  apply stopped_timer_stays; [reflexivity|repeat constructor].
Defined.

(** ** Recomputation from the target end time *)

Lemma recomputation_forgets_live (env : Env) (ev2 : Event) (h : Hook) (x : Z) :
  recomputation ev2 = true ->
  (ev2 = VisibilityChange -> visible env = true) ->
  isRunning (state h) = true ->
  truthy (endTimeRef h) = true ->
  fire env ev2
    (mkHook (mkState (mode (state h)) x true (completedSessions (state h)))
       (endTimeRef h) (inserted h) (effects h))
  = fire env ev2 h.
Proof.
  intros Hev Hvis Hrun Hr. break_hook h. subst r.
  set (h1 := mkHook (mkState m x true n) e ins eff).
  set (h0 := mkHook (mkState m t true n) e ins eff).
  destruct (Z.eqb_spec (remaining_of (to_number e) (dateNow env)) 0) as [Hz|Hnz].
  - assert (Hc1 : completes env ev2 h1 = true).
    { unfold completes, expired. cbn. rewrite Hr, Hz.
      destruct ev2; try discriminate; [reflexivity|]. rewrite Hvis; reflexivity. }
    assert (Hc0 : completes env ev2 h0 = true) by exact Hc1.
    rewrite (recomputation_expires env ev2 h1 Hev Hc1).
    rewrite (recomputation_expires env ev2 h0 Hev Hc0). reflexivity.
  - rewrite (recomputation_live env ev2 h1 Hev eq_refl Hvis Hr Hnz).
    rewrite (recomputation_live env ev2 h0 Hev eq_refl Hvis Hr Hnz). reflexivity.
Qed.

(** X4: what a recomputation leaves depends on the target end time and
    the clock alone, not on the recomputations before it: a tick or a
    visibility change at [t2] gives the same hook whether or not another
    tick or visibility change came at an earlier [t1], so ticks that are
    delayed or dropped cost nothing.  In particular a recomputation
    repeated at the same instant changes nothing more. *)
Theorem recomputation_forgets_earlier (env : Env) (t1 t2 : Z) (ev1 ev2 : Event)
    (h : Hook) :
  recomputation ev1 = true ->
  recomputation ev2 = true ->
  t1 <= t2 ->
  (ev2 = VisibilityChange -> visible env = true) ->
  fire (at_time env t2) ev2 (fire (at_time env t1) ev1 h)
  = fire (at_time env t2) ev2 h
  /\ fire (at_time env t1) ev1 (fire (at_time env t1) ev1 h)
     = fire (at_time env t1) ev1 h.
Proof.
  intros Hev1 Hev2 Hle Hvis2.
  destruct (recomputation_cases (at_time env t1) ev1 h Hev1)
    as [Hid | [(Hrun & Hr & Hvis1 & Hnz & _) | (Hrun & Hr & Hvis1 & Hz & Hc)]].
  - rewrite !Hid. auto.
  - rewrite (recomputation_live _ ev1 h Hev1 Hrun Hvis1 Hr Hnz). split.
    + now apply recomputation_forgets_live.
    + rewrite (recomputation_forgets_live _ ev1 h _ Hev1 Hvis1 Hrun Hr).
      now apply recomputation_live.
  - rewrite (recomputation_expires _ ev1 h Hev1 Hc). split.
    + rewrite recomputation_idle by (assumption || reflexivity).
      assert (Hc2 : completes (at_time env t2) ev2 h = true).
      { cbn in Hz. apply remaining_of_zero in Hz.
        unfold completes, expired. cbn [dateNow at_time visible].
        rewrite Hrun, Hr, remaining_of_past by lia.
        destruct ev2; try discriminate; [reflexivity|].
        rewrite Hvis2; reflexivity. }
      rewrite (recomputation_expires _ ev2 h Hev2 Hc2). reflexivity.
    + now apply recomputation_idle.
Qed.

Lemma recomputation_forgets_earlier_witness :
  fire (at_time (clock 0) 61000) VisibilityChange
    (fire (at_time (clock 0) 3000) Tick (fire (clock 1000) Start mounted))
  = fire (at_time (clock 0) 61000) VisibilityChange (fire (clock 1000) Start mounted).
Proof.
  assert (Hle : 3000 <= 61000) by (vm_compute; discriminate).
  exact (proj1 (recomputation_forgets_earlier (clock 0) 3000 61000 Tick
                  VisibilityChange (fire (clock 1000) Start mounted)
                  eq_refl eq_refl Hle (fun _ => eq_refl))).
Defined.

(** ** Invariants of a mounted hook *)

Lemma fire_running_iff_deadline (env : Env) (ev : Event) (h : Hook) :
  running_iff_deadline h -> running_iff_deadline (fire env ev h).
Proof.
  unfold running_iff_deadline. intros Hinv.
  assert (Hkind : ev = Start \/ stops ev = true \/ recomputation ev = true)
    by (destruct ev; auto).
  destruct Hkind as [-> | [Hstop | Hev]].
  - rewrite fire_Start. cbn. split; [discriminate|reflexivity].
  - destruct (stops_clears env ev h Hstop) as [-> ->].
    split; [discriminate|congruence].
  - destruct (recomputation_cases env ev h Hev)
      as [-> | [(Hrun & Hr & Hvis & Hnz & _) | (_ & _ & _ & _ & Hc)]].
    + exact Hinv.
    + rewrite (recomputation_live env ev h Hev Hrun Hvis Hr Hnz). cbn.
      split; [|reflexivity]. intros _ Hnone. rewrite Hnone in Hr. discriminate.
    + rewrite (recomputation_expires env ev h Hev Hc). cbn. unfold after_skip.
      destruct (Mode_eqb (mode (state h)) work); cbn;
        (split; [discriminate|congruence]).
Qed.

Lemma run_invariant (P : Hook -> Prop) :
  (forall env ev h, P h -> P (fire env ev h)) ->
  forall (evs : list (Env * Event)) (h : Hook), P h -> P (run evs h).
Proof.
  intros Hstep. induction evs as [|[env ev] rest IH]; intros h Hh.
  - exact Hh.
  - cbn [run]. apply IH, Hstep, Hh.
Qed.

(** X5: along every sequence of events from mount, whatever the clock
    does, the timer is running exactly when a target end time is set. *)
Theorem running_exactly_with_deadline (evs : list (Env * Event)) :
  isRunning (state (run evs mounted)) = true <-> endTimeRef (run evs mounted) <> None.
Proof.
  apply (run_invariant running_iff_deadline).
  - exact fire_running_iff_deadline.
  - unfold running_iff_deadline. cbn. split; [discriminate|congruence].
Qed.

Lemma fire_countdown_ok (env : Env) (ev : Event) (t : Z) (h : Hook) :
  t <= dateNow env -> countdown_ok t h -> countdown_ok (dateNow env) (fire env ev h).
Proof.
  unfold countdown_ok. intros Hle (Ht & Hleft & Hend).
  assert (Hkind : ev = Start \/ stops ev = true \/ recomputation ev = true)
    by (destruct ev; auto).
  destruct Hkind as [-> | [Hstop | Hev]].
  - rewrite fire_Start. cbn. split; [lia|]. split; [assumption|].
    intros e [= <-]. lia.
  - destruct (stops_clears env ev h Hstop) as [Href _]. rewrite Href.
    split; [lia|]. split; [|discriminate].
    destruct ev; try discriminate.
    + rewrite fire_Pause. exact Hleft.
    + rewrite fire_Reset. cbn. pose proof (TIMES_pos (mode (state h))). lia.
    + rewrite fire_ModeChange. cbn. pose proof (TIMES_pos m). lia.
    + rewrite fire_Skip. cbn. unfold after_skip.
      destruct (Mode_eqb (mode (state h)) work); cbn;
        try destruct (Z.rem _ _ =? 0); cbn; lia.
  - destruct (recomputation_cases env ev h Hev)
      as [-> | [(Hrun & Hr & Hvis & Hnz & _) | (_ & _ & _ & _ & Hc)]].
    + split; [lia|]. split; [assumption|].
      intros e He. specialize (Hend e He). lia.
    + rewrite (recomputation_live env ev h Hev Hrun Hvis Hr Hnz). cbn.
      destruct (endTimeRef h) as [e|] eqn:He; [|discriminate].
      specialize (Hend e eq_refl). cbn in *.
      unfold remaining_of in *.
      pose proof (ceil_div_1000_upper (e - dateNow env) (timeLeft (state h))
                    ltac:(lia)) as Hup.
      pose proof (ceil_div_1000_covers (e - dateNow env)) as Hcov.
      split; [lia|]. split; [lia|]. intros e' [= <-]. lia.
    + rewrite (recomputation_expires env ev h Hev Hc). cbn. unfold after_skip.
      split; [lia|]. split; [|discriminate].
      destruct (Mode_eqb (mode (state h)) work); cbn;
        try destruct (Z.rem _ _ =? 0); cbn; lia.
Qed.

Lemma run_countdown_ok (evs : list (Env * Event)) :
  forall (t : Z) (h : Hook),
    clock_from t evs -> countdown_ok t h -> exists t', countdown_ok t' (run evs h).
Proof.
  induction evs as [|[env ev] rest IH]; intros t h Hclock Hok.
  - now exists t.
  - cbn [run]. destruct Hclock as [Hle Hrest].
    apply (IH (dateNow env)); [assumption|].
    now apply (fire_countdown_ok env ev t).
Qed.

(** X6: along every sequence of events from mount whose clock readings
    are not negative and never go back, the committed remaining seconds
    stay positive and never exceed the duration of the current mode: the
    hook never renders a countdown of zero, nor one above the full
    duration. *)
Theorem timeLeft_within_duration (t0 : Z) (evs : list (Env * Event)) :
  0 <= t0 ->
  clock_from t0 evs ->
  0 < timeLeft (state (run evs mounted)) <= TIMES (mode (state (run evs mounted))).
Proof.
  intros Ht Hclock.
  destruct (run_countdown_ok evs t0 mounted Hclock) as [t' (_ & Hleft & _)].
  - unfold countdown_ok. cbn. split; [assumption|]. split; [lia|discriminate].
  - exact Hleft.
Qed.

Lemma timeLeft_within_duration_witness :
  0 < timeLeft (state (run [(clock 10, Start); (clock 70500, Tick);
                            (clock 1500010, VisibilityChange)] mounted))
    <= TIMES (mode (state (run [(clock 10, Start); (clock 70500, Tick);
                                (clock 1500010, VisibilityChange)] mounted))).
Proof.
  apply (timeLeft_within_duration 0).
  - vm_compute. discriminate.
  - cbn. repeat split; vm_compute; discriminate.
Defined.

(** ** The count and the stored rows *)

Lemma fire_count (env : Env) (ev : Event) (h : Hook) :
  completedSessions (state (fire env ev h)) =
  completedSessions (state h)
  + (if completes env ev h && Mode_eqb (mode (state h)) work then 1 else 0).
Proof.
  destruct (completes env ev h) eqn:Hc.
  - destruct (completes_fire env ev h Hc) as (-> & _). unfold after_skip. cbn.
    destruct (Mode_eqb (mode (state h)) work); cbn; lia.
  - cbn [andb]. rewrite Z.add_0_r.
    destruct ev; try discriminate; try reflexivity.
    + destruct (recomputation_cases env Tick h eq_refl)
        as [-> | [(Hrun & Hr & Hvis & Hnz & _) | (_ & _ & _ & _ & Hc')]];
        [reflexivity| |congruence].
      rewrite (recomputation_live env Tick h eq_refl Hrun Hvis Hr Hnz). reflexivity.
    + destruct (recomputation_cases env VisibilityChange h eq_refl)
        as [-> | [(Hrun & Hr & Hvis & Hnz & _) | (_ & _ & _ & _ & Hc')]];
        [reflexivity| |congruence].
      rewrite (recomputation_live env VisibilityChange h eq_refl Hrun Hvis Hr Hnz).
      reflexivity.
Qed.

Lemma fire_gains (env : Env) (ev : Event) (h : Hook) :
  0 <= rows_gained h (fire env ev h) <= count_gained h (fire env ev h)
  /\ ((exists uid, getUser env = Returns (Some uid)) ->
      rows_gained h (fire env ev h) = count_gained h (fire env ev h)).
Proof.
  unfold rows_gained, count_gained.
  rewrite fire_count, fire_inserted, length_app, skip_rows_cases.
  destruct (completes env ev h); cbn [andb].
  - destruct (Mode_eqb (mode (state h)) work).
    + destruct (getUser env) as [[uid|]|]; cbn [List.length].
      * split; [lia|]. intros _. lia.
      * split; [lia|]. intros [uid [=]].
      * split; [lia|]. intros [uid [=]].
    + cbn [List.length]. split; [lia|]. intros _. lia.
  - cbn [List.length]. split; [lia|]. intros _. lia.
Qed.

(** X7: along any sequence of events the count of completed sessions
    never goes down, and the rows handed to the store never outnumber the
    sessions counted meanwhile; when the identity query finds a user at
    every event the two grow alike, so that from mount the store holds
    exactly as many rows as the counter shows. *)
Theorem rows_follow_count (evs : list (Env * Event)) (h : Hook) :
  0 <= rows_gained h (run evs h) <= count_gained h (run evs h)
  /\ (signed_in_throughout evs ->
      rows_gained h (run evs h) = count_gained h (run evs h)).
Proof.
  revert h. induction evs as [|[env ev] rest IH]; intros h.
  - unfold rows_gained, count_gained. cbn. split; [lia|]. intros _. lia.
  - cbn [run].
    destruct (fire_gains env ev h) as [Hstep Hstep_eq].
    destruct (IH (fire env ev h)) as [Hrest Hrest_eq].
    unfold rows_gained, count_gained in *.
    split; [lia|]. intros Hall. inversion Hall as [|p l Huser Hl]; subst.
    cbn [fst] in Huser. specialize (Hstep_eq Huser). specialize (Hrest_eq Hl). lia.
Qed.

Lemma rows_follow_count_witness :
  rows_gained mounted
    (run [(signed_in 0, Skip); (signed_in 10, Skip); (signed_in 20, Skip)] mounted)
  = count_gained mounted
      (run [(signed_in 0, Skip); (signed_in 10, Skip); (signed_in 20, Skip)] mounted).
Proof.
  apply (rows_follow_count
           [(signed_in 0, Skip); (signed_in 10, Skip); (signed_in 20, Skip)] mounted).
  repeat constructor; now exists "user-1"%string.
Defined.

(** X8: the timer never depends on the store or on the identity query:
    whatever the query returns or throws, whether the insert is rejected,
    whatever the day and the current task, every event leaves the same
    mode, remaining seconds, running flag, count and target end time. *)
Theorem timer_ignores_backend (env : Env) (ev : Event) (h : Hook)
    (user : Outcome (option string)) (rejects : bool) (day : Z)
    (task : option string) :
  let env' := mkEnv (dateNow env) (visible env) user rejects day task in
  state (fire env' ev h) = state (fire env ev h)
  /\ endTimeRef (fire env' ev h) = endTimeRef (fire env ev h).
Proof.
  cbv zeta.
  set (env' := mkEnv (dateNow env) (visible env) user rejects day task).
  destruct (Plain_fire_timer env ev h) as [<- <-].
  destruct (Plain_fire_timer env' ev h) as [<- <-].
  assert (Hsame : Plain.fire env' ev h = Plain.fire env ev h).
  { destruct ev; reflexivity. }
  rewrite Hsame. auto.
Qed.

(** X9: a click on the play/pause button flips the running flag; from a
    stopped timer, a second click before any recomputation puts the hook
    back exactly as it was, so starting and pausing at once costs no
    time. *)
Theorem play_pause_toggles (env env' : Env) (h : Hook) :
  let h1 := fire env (playPauseClick h) h in
  isRunning (state h1) = negb (isRunning (state h))
  /\ (isRunning (state h) = false ->
      endTimeRef h = None ->
      fire env' (playPauseClick h1) h1 = h).
Proof.
  cbv zeta. break_hook h. unfold playPauseClick. cbn [state isRunning].
  destruct r.
  - rewrite fire_Pause. cbn. split; [reflexivity|discriminate].
  - rewrite fire_Start. cbn. split; [reflexivity|].
    intros _ ->. reflexivity.
Qed.

(** * Properties of the page around the hook *)

(** ** The text of the countdown *)

Lemma In_Array_from_length (n t : Z) :
  In t (Array_from_length n) <-> 0 <= t < n.
Proof.
  unfold Array_from_length. rewrite in_map_iff. split.
  - intros (k & <- & Hk). apply in_seq in Hk. lia.
  - intros Ht. exists (Z.to_nat t). split; [lia|]. apply in_seq. lia.
Qed.

Lemma below_forallb (P : Z -> bool) (n : Z) :
  forallb P (Array_from_length n) = true ->
  forall t : Z, 0 <= t < n -> P t = true.
Proof.
  intros Hall t Ht. rewrite forallb_forall in Hall.
  apply Hall, In_Array_from_length, Ht.
Qed.

Lemma clock_text_checked :
  forall t : Z, 0 <= t < 6000 -> clock_text_ok t = true.
Proof.
  apply (below_forallb clock_text_ok 6000). vm_compute. reflexivity.
Qed.

Lemma read_clock_timeString (t : Z) :
  0 <= t < 6000 ->
  String.length (timeString t) = 5%nat /\ read_clock (timeString t) = Some t.
Proof.
  intros Ht. pose proof (clock_text_checked t Ht) as Hok.
  unfold clock_text_ok in Hok. apply andb_prop in Hok as [Hlen Hread].
  apply Nat.eqb_eq in Hlen. split; [assumption|].
  destruct (read_clock (timeString t)) as [v|]; [|discriminate].
  apply Z.eqb_eq in Hread. now subst.
Qed.

(** X10: for every remaining time from 0 up to 5999 seconds the text
    shown by the Timer component has exactly five characters, two digits
    of minutes, a colon and two digits of seconds below 60, and reads back
    as the remaining time; so two different remaining times never show the
    same text. *)
Theorem timeString_reads_back (t : Z) :
  0 <= t < 6000 ->
  String.length (timeString t) = 5%nat
  /\ read_clock (timeString t) = Some t
  /\ forall t' : Z, 0 <= t' < 6000 -> timeString t = timeString t' -> t = t'.
Proof.
  intros Ht. destruct (read_clock_timeString t Ht) as [Hlen Hread].
  split; [assumption|]. split; [assumption|].
  intros t' Ht' Heq. destruct (read_clock_timeString t' Ht') as [_ Hread'].
  rewrite Heq, Hread' in Hread. now injection Hread.
Qed.

Lemma timeString_reads_back_witness :
  read_clock (timeString 1500) = Some 1500.
Proof.
  destruct (timeString_reads_back 1500) as (_ & Hread & _).
  - vm_compute. split; [discriminate|reflexivity].
  - exact Hread.
Defined.

Lemma read_clock_shape (s : string) (t : Z) :
  read_clock s = Some t ->
  exists a b c d : ascii,
    s = String a (String b (String ":" (String c (String d EmptyString)))).
Proof.
  destruct s as [|a [|b [|sep [|c [|d [|x s]]]]]]; try discriminate.
  cbn. intros Hread.
  destruct (digit_value a), (digit_value b), (digit_value c), (digit_value d);
    try discriminate.
  destruct (Ascii.eqb_spec sep ":") as [->|]; [|discriminate].
  now exists a, b, c, d.
Qed.

(** X11: the document title is the text MM:SS, then " - ", the label of
    the mode and " | Pomodoro"; for remaining times below 6000 seconds it
    tells the remaining time and the mode apart: two renders with the same
    title have the same remaining seconds and the same mode. *)
Theorem document_title_tells (s1 s2 : HookState) :
  0 <= timeLeft s1 < 6000 ->
  0 <= timeLeft s2 < 6000 ->
  document_title s1 = document_title s2 ->
  timeLeft s1 = timeLeft s2 /\ mode s1 = mode s2.
Proof.
  intros H1 H2 Htitle.
  destruct (read_clock_timeString _ H1) as [_ Hr1].
  destruct (read_clock_timeString _ H2) as [_ Hr2].
  destruct (read_clock_shape _ _ Hr1) as (a1 & b1 & c1 & d1 & Hs1).
  destruct (read_clock_shape _ _ Hr2) as (a2 & b2 & c2 & d2 & Hs2).
  unfold document_title in Htitle. rewrite Hs1, Hs2 in Htitle.
  cbn [String.append] in Htitle.
  injection Htitle as -> -> -> -> Hlabel.
  split.
  - rewrite <- Hs2 in Hs1. rewrite Hs1, Hr2 in Hr1. now injection Hr1.
  - destruct (mode s1), (mode s2); try reflexivity; discriminate.
Qed.

Lemma document_title_tells_witness :
  document_title (mkState break 299 true 1) = "04:59 - Pausa | Pomodoro"%string
  /\ mode (mkState break 299 true 1) = mode (mkState break 299 false 5).
Proof.
  split; [reflexivity|].
  apply (document_title_tells (mkState break 299 true 1) (mkState break 299 false 5)).
  - vm_compute. split; [discriminate|reflexivity].
  - vm_compute. split; [discriminate|reflexivity].
  - reflexivity.
Defined.

(** ** The session indicators *)

Lemma map_below_all (r : Z) (n a : nat) :
  Z.of_nat (a + n) <= r ->
  map (fun index => index <? r) (map Z.of_nat (List.seq a n)) = repeat true n.
Proof.
  revert a. induction n as [|n IH]; intros a Hle; [reflexivity|].
  cbn [List.seq map repeat]. rewrite IH by lia.
  replace (Z.of_nat a <? r) with true by (symmetry; apply Z.ltb_lt; lia).
  reflexivity.
Qed.

Lemma map_below_none (r : Z) (n a : nat) :
  r <= Z.of_nat a ->
  map (fun index => index <? r) (map Z.of_nat (List.seq a n)) = repeat false n.
Proof.
  revert a. induction n as [|n IH]; intros a Hle; [reflexivity|].
  cbn [List.seq map repeat]. rewrite IH by lia.
  replace (Z.of_nat a <? r) with false by (symmetry; apply Z.ltb_ge; lia).
  reflexivity.
Qed.

Lemma indicators_split (r n : Z) :
  0 <= r <= n ->
  map (fun index => index <? r) (Array_from_length n)
  = repeat true (Z.to_nat r) ++ repeat false (Z.to_nat (n - r)).
Proof.
  intros Hr. unfold Array_from_length.
  replace (Z.to_nat n) with (Z.to_nat r + Z.to_nat (n - r))%nat by lia.
  rewrite seq_app, !map_app.
  rewrite map_below_all by lia. rewrite map_below_none by lia. reflexivity.
Qed.

(** X12: for a count [c >= 0] and a cycle of [n > 0] sessions the
    component renders [n] indicators, the first [c mod n] of them filled
    and the rest empty; so the row is never entirely filled, and it is
    entirely empty exactly when the count is a multiple of [n]. *)
Theorem indicators_filled (c n : Z) :
  0 <= c ->
  0 < n ->
  indicators c n
  = repeat true (Z.to_nat (c mod n)) ++ repeat false (Z.to_nat (n - c mod n))
  /\ List.length (indicators c n) = Z.to_nat n
  /\ In false (indicators c n)
  /\ (In true (indicators c n) <-> c mod n <> 0).
Proof.
  intros Hc Hn. unfold indicators.
  rewrite Z.rem_mod_nonneg by lia.
  pose proof (Z.mod_pos_bound c n Hn) as Hmod.
  rewrite indicators_split by lia.
  split; [reflexivity|]. split; [|split].
  - rewrite length_app, !repeat_length. lia.
  - apply in_or_app. right.
    destruct (Z.to_nat (n - c mod n)) eqn:Hk; [lia|]. now left.
  - split.
    + intros Hin Hz. rewrite Hz in Hin. cbn in Hin.
      apply repeat_spec in Hin. discriminate.
    + intros Hnz. apply in_or_app. left.
      destruct (Z.to_nat (c mod n)) eqn:Hk; [lia|]. now left.
Qed.

Lemma indicators_filled_witness :
  indicators 5 4 = [true; false; false; false].
Proof.
  destruct (indicators_filled 5 4) as (Hrow & _).
  - vm_compute. discriminate.
  - reflexivity.
  - exact Hrow.
Defined.

(** X13: when a focus session completes, by skip or by natural expiry,
    from a count that is not negative, the hook enters the long break
    exactly when the indicators of the new count, with the hook's own
    cycle length, are all empty; for a short break at least one of them is
    filled. *)
Theorem long_break_empties_indicators (env : Env) (ev : Event) (h : Hook) :
  completes env ev h = true ->
  mode (state h) = work ->
  0 <= completedSessions (state h) ->
  let h' := fire env ev h in
  (mode (state h') = longBreak <->
   ~ In true (indicators (completedSessions (state h')) SESSIONS_UNTIL_LONG_BREAK))
  /\ (mode (state h') = break <->
      In true (indicators (completedSessions (state h')) SESSIONS_UNTIL_LONG_BREAK)).
Proof.
  intros Hc Hm Hn. cbv zeta.
  destruct (completes_fire env ev h Hc) as (-> & _).
  unfold after_skip. rewrite Hm. cbn [Mode_eqb].
  set (n := completedSessions (state h) + 1).
  destruct (indicators_filled n SESSIONS_UNTIL_LONG_BREAK) as (_ & _ & _ & Hfilled);
    [lia|reflexivity|].
  unfold SESSIONS_UNTIL_LONG_BREAK in *. rewrite rem_4_mod_4.
  destruct (Z.eqb_spec (n mod 4) 0) as [Hz|Hnz]; cbn [mode completedSessions].
  - split; split; try discriminate; try reflexivity.
    + intros _ Hin. apply Hfilled in Hin. contradiction.
    + intros Hin. apply Hfilled in Hin. contradiction.
  - split; split; try discriminate; try reflexivity.
    + intros Hnone. exfalso. apply Hnone, Hfilled, Hnz.
    + intros _. apply Hfilled, Hnz.
Qed.

Lemma long_break_empties_indicators_witness :
  mode (state (fire (clock 0) Skip (mkHook (mkState work 1500 false 3) None [] [])))
  = longBreak.
Proof.
  assert (H0 : 0 <= 3) by (vm_compute; discriminate).
  destruct (long_break_empties_indicators (clock 0) Skip
              (mkHook (mkState work 1500 false 3) None [] []) eq_refl eq_refl H0)
    as [Hlong _].
  apply Hlong. vm_compute. intros [H|[H|[H|[H|[]]]]]; discriminate.
Defined.

(** ** The task list *)




Lemma clicks_keep_name (cs : list TaskClick) (p : Page) :
  currentTaskName (clicks cs p) = currentTaskName p.
Proof.
  unfold clicks. revert p. induction cs as [|c cs IH]; intros p; [reflexivity|].
  cbn [fold_left]. rewrite IH. destruct c; reflexivity.
Qed.

(** X15: the task name saved with a focus session is the text of the task
    added last, whatever was toggled or deleted since: after a task with a
    non-empty text was added, and after any toggles and deletes (of that
    task too), a focus completion with a user signed in hands over one row
    whose task name is that text.  On a page where no task was ever added
    the task name is null. *)
Theorem last_added_task_is_saved (env : Env) (ev : Event) (h : Hook) (p : Page)
    (uuid new_text uid : string) (cs : list TaskClick) :
  new_text <> EmptyString ->
  getUser env = Returns (Some uid) ->
  completes env ev h = true ->
  mode (state h) = work ->
  let p' := clicks cs (handleAddTask uuid new_text p) in
  inserted (fire (page_env env p') ev h)
  = inserted h ++ [mkRow uid "pomodoro" 25 (Some new_text) (getDay env)]
  /\ inserted (fire (page_env env (clicks cs page_mounted)) ev h)
     = inserted h ++ [mkRow uid "pomodoro" 25 None (getDay env)].
Proof.
  intros Htext Huser Hc Hm. cbv zeta.
  rewrite !fire_inserted.
  assert (Hc' : forall q, completes (page_env env q) ev h = true) by (intros q; exact Hc).
  rewrite !Hc', !skip_rows_cases, Hm. cbn [Mode_eqb page_env getUser].
  rewrite Huser. unfold focus_row, page_env. cbn [currentTask getDay].
  rewrite !clicks_keep_name. cbn [handleAddTask currentTaskName page_mounted or_null].
  destruct (String.eqb_spec new_text EmptyString) as [->|_]; [congruence|].
  split; reflexivity.
Qed.

Lemma last_added_task_is_saved_witness :
  inserted (fire (page_env (signed_in 0)
                    (clicks [ToggleTask "a"; DeleteTask "a"]
                       (handleAddTask "a" "reading" page_mounted)))
              Skip mounted)
  = [mkRow "user-1" "pomodoro" 25 (Some "reading"%string) 1].
Proof.
  assert (Htext : "reading"%string <> EmptyString) by discriminate.
  exact (proj1 (last_added_task_is_saved (signed_in 0) Skip mounted page_mounted
                  "a" "reading" "user-1" [ToggleTask "a"; DeleteTask "a"]
                  Htext eq_refl eq_refl eq_refl)).
Defined.

(** ** The weekly report *)

Lemma totalCompleted_by_day (round_percent : Z -> Z -> Z) (l : list Row)
    (goalsData : option (list WeeklyGoal)) :
  totalCompleted (calculateStats round_percent (weekDataOf (Some l) goalsData))
  = 0 + day_count 0 l + day_count 1 l + day_count 2 l + day_count 3 l
    + day_count 4 l + day_count 5 l + day_count 6 l.
Proof. reflexivity. Qed.

Lemma day_count_cons (i : Z) (a : Row) (l : list Row) :
  day_count i (a :: l) = (if day_of_week a =? i then 1 else 0) + day_count i l.
Proof.
  unfold day_count. cbn [filter].
  destruct (day_of_week a =? i); cbn [List.length]; lia.
Qed.

Lemma day_counts_total (l : list Row) :
  0 + day_count 0 l + day_count 1 l + day_count 2 l + day_count 3 l
  + day_count 4 l + day_count 5 l + day_count 6 l
  = Z.of_nat (List.length (filter study_sessions_day_check l)).
Proof.
  induction l as [|a l IH]; [reflexivity|].
  rewrite !day_count_cons. cbn [filter]. unfold study_sessions_day_check at 1.
  destruct (Z.leb_spec 0 (day_of_week a)); destruct (Z.leb_spec (day_of_week a) 6);
    cbn [andb List.length];
    repeat match goal with
           | |- context [?x =? ?y] => destruct (Z.eqb_spec x y)
           end; lia.
Qed.



Lemma run_inserted_env (Q : Env -> Prop) (P : Row -> Prop) :
  (forall env s r, Q env -> In r (skip_rows env s) -> P r) ->
  forall (evs : list (Env * Event)) (h : Hook),
    Forall (fun p => Q (fst p)) evs ->
    Forall P (inserted h) -> Forall P (inserted (run evs h)).
Proof.
  intros Hskip. induction evs as [|[env ev] rest IH]; intros h Henv Hall.
  - exact Hall.
  - cbn [run]. inversion Henv as [|p l Hq Hrest]; subst. cbn [fst] in Hq.
    apply IH; [assumption|]. rewrite fire_inserted. apply Forall_app. split.
    + exact Hall.
    + destruct (completes env ev h); [|constructor].
      apply Forall_forall. intros r Hin. eapply Hskip; eassumption.
Qed.

Lemma stored_minutes_25 (l : list Row) :
  Forall (fun r => duration_minutes r = 25) l ->
  stored_minutes l = 25 * Z.of_nat (List.length l).
Proof.
  induction 1 as [|a l Ha _ IH]; [reflexivity|].
  cbn [stored_minutes fold_right List.length]. fold (stored_minutes l). lia.
Qed.

(** X17: the report agrees with what the hook stores.  Take the rows one
    hook hands to the store along any sequence of events, the day of the
    week being in 0..6 at each of them.  Every row passes the report's
    filter on the mode "pomodoro" and the table's constraint on the day;
    the report counts each of them once; and its hours and minutes, at 25
    minutes a session, add up to the minutes stored with the rows. *)
Theorem report_matches_stored_rows (round_percent : Z -> Z -> Z)
    (evs : list (Env * Event)) (goalsData : option (list WeeklyGoal)) :
  Forall (fun p => 0 <= getDay (fst p) <= 6) evs ->
  let stored := inserted (run evs mounted) in
  let stats := calculateStats round_percent (weekDataOf (Some stored) goalsData) in
  Forall (fun r => row_mode r = "pomodoro"%string
                   /\ study_sessions_day_check r = true) stored
  /\ totalCompleted stats = Z.of_nat (List.length stored)
  /\ hours stats * 60 + minutes stats = stored_minutes stored
  /\ 0 <= minutes stats < 60.
Proof.
  intros Hdays. cbv zeta.
  set (stored := inserted (run evs mounted)).
  assert (Hrows : Forall (fun r => row_mode r = "pomodoro"%string
                                   /\ duration_minutes r = 25
                                   /\ study_sessions_day_check r = true) stored).
  { apply (run_inserted_env (fun env => 0 <= getDay env <= 6)); [|assumption|constructor].
    intros env s r Hday Hin. destruct (skip_rows_focus env s r Hin) as [uid ->].
    unfold study_sessions_day_check, focus_row. cbn.
    split; [reflexivity|]. split; [reflexivity|].
    apply andb_true_intro. split; apply Z.leb_le; lia. }
  assert (Htotal : totalCompleted
                     (calculateStats round_percent (weekDataOf (Some stored) goalsData))
                   = Z.of_nat (List.length stored)).
  { rewrite totalCompleted_by_day, day_counts_total. f_equal. f_equal.
    clear -Hrows. induction Hrows as [|a l (_ & _ & Ha) _ IH]; [reflexivity|].
    cbn [filter]. rewrite Ha, IH. reflexivity. }
  split; [|split; [exact Htotal|]].
  - eapply Forall_impl; [|exact Hrows]. cbn. intros r (Hm & _ & Hd). auto.
  - rewrite stored_minutes_25
      by (eapply Forall_impl; [|exact Hrows]; cbn; intros r (_ & Hd & _); exact Hd).
    change (hours (calculateStats round_percent (weekDataOf (Some stored) goalsData)))
      with (totalCompleted
              (calculateStats round_percent (weekDataOf (Some stored) goalsData))
            * 25 / 60).
    change (minutes (calculateStats round_percent (weekDataOf (Some stored) goalsData)))
      with (Z.rem (totalCompleted
                     (calculateStats round_percent (weekDataOf (Some stored) goalsData))
                   * 25) 60).
    rewrite Htotal. rewrite Z.rem_mod_nonneg by lia.
    pose proof (Z.div_mod (Z.of_nat (List.length stored) * 25) 60 ltac:(lia)).
    pose proof (Z.mod_pos_bound (Z.of_nat (List.length stored) * 25) 60 ltac:(lia)).
    lia.
Qed.

Lemma report_matches_stored_rows_witness :
  totalCompleted
    (calculateStats (fun _ _ => 0)
       (weekDataOf (Some (inserted (run [(signed_in 0, Skip); (signed_in 9, Skip);
                                         (signed_in 20, Skip)] mounted))) None))
  = 2.
Proof.
  destruct (report_matches_stored_rows (fun _ _ => 0)
              [(signed_in 0, Skip); (signed_in 9, Skip); (signed_in 20, Skip)] None)
    as (_ & Htotal & _).
  - repeat constructor; vm_compute; discriminate.
  - exact Htotal.
Defined.

(** X18: [generateSuggestions] never returns an empty list and never
    more than four messages; the messages for a week below 50% and for a
    week at 80% or above never come together; the number of pomodoros left
    today is at least one and takes the plural exactly above one; the
    fallback that asks to configure goals only ever comes alone, and only
    when the percentage is at least 50 and below 80; with no day data at
    all the answer is the single message that the week is below 50%. *)
Theorem suggestions_never_empty (round_percent : Z -> Z -> Z) (today : Z)
    (weekData : list DayData) :
  let suggestions := generateSuggestions round_percent today weekData in
  let stats := calculateStats round_percent weekData in
  suggestions <> []
  /\ (List.length suggestions <= 4)%nat
  /\ ~ (In BelowHalf suggestions /\ In Excellent suggestions)
  /\ (forall n plural, In (RemainingToday n plural) suggestions ->
        1 <= n /\ (plural = true <-> 1 < n))
  /\ (In ConfigureGoals suggestions ->
        suggestions = [ConfigureGoals] /\ 50 <= percentage stats < 80)
  /\ generateSuggestions round_percent today [] = [BelowHalf].
Proof.
  cbv zeta. unfold generateSuggestions.
  set (stats := calculateStats round_percent weekData).
  set (s1 := match find (fun d => dayOfWeek d =? today) weekData with
             | Some d => if completed d <? target d
                         then [RemainingToday (target d - completed d)
                                 (1 <? target d - completed d)]
                         else []
             | None => [] end).
  set (s2 := if percentage stats <? 50 then [BelowHalf]
             else if 80 <=? percentage stats then [Excellent] else []).
  set (low := filter (fun d => (0 <? target d) && (2 * completed d <? target d)
                               && (dayOfWeek d <? today)) weekData).
  set (s3 := if (0 <? List.length low)%nat
             then [LowDays (Z.of_nat (List.length low)) (1 <? List.length low)%nat]
             else []).
  set (onGoal := List.length (filter (fun d => (dayOfWeek d <=? today)
                                               && (target d <=? completed d)) weekData)).
  set (s4 := if (3 <=? onGoal)%nat then [Consistency] else []).
  assert (H1 : s1 = [] \/ exists n, 1 <= n /\ s1 = [RemainingToday n (1 <? n)]).
  { subst s1. destruct (find _ weekData) as [d|]; [|now left].
    destruct (Z.ltb_spec (completed d) (target d)); [|now left].
    right. exists (target d - completed d). split; [lia|reflexivity]. }
  assert (H2 : (s2 = [BelowHalf] /\ percentage stats < 50)
               \/ (s2 = [Excellent] /\ 80 <= percentage stats)
               \/ (s2 = [] /\ 50 <= percentage stats < 80)).
  { subst s2. destruct (Z.ltb_spec (percentage stats) 50); [left; auto|].
    destruct (Z.leb_spec 80 (percentage stats)); [right; left; auto|].
    right; right; split; [reflexivity|lia]. }
  assert (H3 : s3 = [] \/ exists k p, s3 = [LowDays k p]).
  { subst s3. destruct (0 <? List.length low)%nat; [right; eauto|now left]. }
  assert (H4 : s4 = [] \/ s4 = [Consistency]).
  { subst s4. destruct (3 <=? _)%nat; auto. }
  clearbody s1 s2 s3 s4.
  split; [|split; [|split; [|split; [|split]]]].
  - destruct (s1 ++ s2 ++ s3 ++ s4); discriminate.
  - destruct H1 as [->|(n & _ & ->)]; destruct H2 as [[-> _]|[[-> _]|[-> _]]];
      destruct H3 as [->|(k & p & ->)]; destruct H4 as [->| ->]; cbn; lia.
  - intros [Hb He].
    destruct H1 as [->|(n & _ & ->)]; destruct H2 as [[-> _]|[[-> _]|[-> _]]];
      destruct H3 as [->|(k & p & ->)]; destruct H4 as [->| ->]; cbn in Hb, He;
      intuition discriminate.
  - intros n plural Hin.
    destruct H1 as [->|(n' & Hn' & ->)]; destruct H2 as [[-> _]|[[-> _]|[-> _]]];
      destruct H3 as [->|(k & p & ->)]; destruct H4 as [->| ->]; cbn in Hin;
      repeat match goal with
             | H : _ \/ _ |- _ => destruct H
             | H : False |- _ => destruct H
             | H : RemainingToday _ _ = RemainingToday _ _ |- _ =>
                 injection H as <- <-
             | H : _ = RemainingToday _ _ |- _ => discriminate H
             end;
      (split; [assumption|]); rewrite Z.ltb_lt; reflexivity.
  - intros Hin.
    destruct H1 as [->|(n' & Hn' & ->)]; destruct H2 as [[-> Hp]|[[-> Hp]|[-> Hp]]];
      destruct H3 as [->|(k & p & ->)]; destruct H4 as [->| ->]; cbn in Hin |- *;
      try (split; [reflexivity|exact Hp]);
      exfalso; intuition discriminate.
  - reflexivity.
Qed.

(** X19: with a user signed in, [saveSession] hands over exactly one row
    whatever the mode it is called with, with the whole minutes of that
    mode's duration; the row passes the table's constraint on the mode for
    the focus mode and for the long break, but not for the short break,
    whose internal name "break" is not among the accepted values; it
    passes the constraint on the day exactly when the day is in 0..6. *)
Theorem saveSession_row_and_checks (env : Env) (sessionMode : Mode) (uid : string) :
  getUser env = Returns (Some uid) ->
  exists r : Row,
    rows (saveSession env sessionMode blank) = [r]
    /\ user_id r = uid
    /\ duration_minutes r = TIMES sessionMode / 60
    /\ (study_sessions_mode_check r = true <-> sessionMode <> break)
    /\ (study_sessions_day_check r = true <-> 0 <= getDay env <= 6).
Proof.
  intros Huser. unfold saveSession, blank. rewrite Huser.
  eexists. split.
  - unfold seq, insert. cbn [rows]. destruct (insertThrows env); reflexivity.
  - cbn [user_id duration_minutes]. split; [reflexivity|]. split; [reflexivity|].
    split.
    + destruct sessionMode; cbn; split; congruence.
    + unfold study_sessions_day_check. cbn [day_of_week].
      rewrite andb_true_iff, !Z.leb_le. reflexivity.
Qed.

Lemma saveSession_row_and_checks_witness :
  exists r : Row,
    rows (saveSession (signed_in 0) break blank) = [r]
    /\ study_sessions_mode_check r = false.
Proof.
  destruct (saveSession_row_and_checks (signed_in 0) break "user-1" eq_refl)
    as (r & Hrow & _ & _ & Hmode & _).
  exists r. split; [exact Hrow|].
  destruct (study_sessions_mode_check r); [|reflexivity].
  exfalso. now apply (proj1 Hmode).
Defined.
